(** * learnmolsim: data model and validated setters, embedded in Rocq

    A shallow embedding of [learnmolsim/state.py], [learnmolsim/potential.py]
    and [learnmolsim/dynamics.py].

    - Python values that reach the setters are terms of [pyobj]; a NumPy
      array is an [ndarray] carrying its dtype, its shape and its flat,
      row-major data; [numpy.float64] is Rocq's primitive binary64 [float].
    - A Python exception is a constructor of [exn]; a call that may raise
      returns a [result].
    - A method that mutates [self] is a function from the object to an
      outcome paired with the object as the call leaves it ([M]), so that a
      raise after a partial update would be visible in the model.
    - [numpy.array(..., copy=False)] has the NumPy 1.x meaning the package
      was written for: copy only when needed.  Which array object a setter
      ends up storing (the caller's or a copy) is not modelled. *)

From Stdlib Require Import ZArith List Bool Lia Floats.
From Stdlib Require String Ascii DecimalString.
Import ListNotations.
Local Open Scope Z_scope.
Set Warnings "-register-all,-inexact-float".

(** ** Exceptions and results *)

Inductive exn : Type :=
| TypeError
| ValueError
| OverflowError
| NotImplementedError.

Inductive result (A : Type) : Type :=
| Ok (a : A)
| Raise (e : exn).
Arguments Ok {A} a.
Arguments Raise {A} e.

Definition rbind {A B : Type} (r : result A) (k : A -> result B) : result B :=
  match r with
  | Ok a => k a
  | Raise e => Raise e
  end.

(** A method run on an object of type [S]: the outcome and the object as the
    call leaves it. *)
Definition M (S A : Type) : Type := S -> result A * S.

Definition ret {S A : Type} (a : A) : M S A := fun s => (Ok a, s).

Definition raise {S A : Type} (e : exn) : M S A := fun s => (Raise e, s).

Definition bind {S A B : Type} (m : M S A) (k : A -> M S B) : M S B :=
  fun s =>
    match m s with
    | (Ok a, s') => k a s'
    | (Raise e, s') => (Raise e, s')
    end.

(** A computation on local variables only: it can raise, it cannot touch
    the object. *)
Definition lift {S A : Type} (r : result A) : M S A := fun s => (r, s).

Definition modify {S : Type} (f : S -> S) : M S unit := fun s => (Ok tt, f s).

(** Reading an attribute of [self]. *)
Definition gets {S A : Type} (f : S -> A) : M S A := fun s => (Ok (f s), s).

Declare Scope py_scope.
Delimit Scope py_scope with py.
Notation "x <- m ;; k" := (bind m (fun x => k))
  (at level 61, m at next level, right associativity) : py_scope.
Notation "m ;; k" := (bind m (fun _ => k))
  (at level 61, right associativity) : py_scope.
Notation "x <-? r ;; k" := (rbind r (fun x => k))
  (at level 61, r at next level, right associativity) : py_scope.
Local Open Scope py_scope.

(** ** NumPy arrays *)

Inductive dtype : Type := float64 | int32.

Definition shape_t : Type := list Z.

Inductive ndarray : Type :=
| NdFloat64 (shape : shape_t) (data : list float)
| NdInt32 (shape : shape_t) (data : list Z).

Definition nd_dtype (a : ndarray) : dtype :=
  match a with
  | NdFloat64 _ _ => float64
  | NdInt32 _ _ => int32
  end.

Definition nd_shape (a : ndarray) : shape_t :=
  match a with
  | NdFloat64 sh _ => sh
  | NdInt32 sh _ => sh
  end.

Definition nd_rank (a : ndarray) : nat := length (nd_shape a).

(** Number of elements of an array of the given shape. *)
Definition shape_size (sh : shape_t) : Z := fold_right Z.mul 1 sh.

Fixpoint shape_eqb (s t : shape_t) : bool :=
  match s, t with
  | [], [] => true
  | x :: s', y :: t' => (x =? y) && shape_eqb s' t'
  | _, _ => false
  end.

(** The binary64 nearest to an integer (ties to even); an integer too large
    for binary64 comes out infinite. *)
Definition Z2SF (z : Z) : spec_float := binary_normalize prec emax z 0 false.

Definition Z2float (z : Z) : float := SF2Prim (Z2SF z).

(** [float(z)] on a Python int: [OverflowError] beyond the binary64 range. *)
Definition float_of_int (z : Z) : result float :=
  match Z2SF z with
  | S754_infinity _ => Raise OverflowError
  | sf => Ok (SF2Prim sf)
  end.

(** [a.astype(numpy.float64)] on the data: an int32 is exactly a binary64. *)
Definition nd_float_data (a : ndarray) : list float :=
  match a with
  | NdFloat64 _ d => d
  | NdInt32 _ d => map Z2float d
  end.

(** [numpy.zeros(shape, dtype=...)]. *)
Definition np_zeros (sh : shape_t) (dt : dtype) : ndarray :=
  match dt with
  | float64 => NdFloat64 sh (repeat 0%float (Z.to_nat (shape_size sh)))
  | int32 => NdInt32 sh (repeat 0 (Z.to_nat (shape_size sh)))
  end.

(** [numpy.zeros_like(a)]: same shape and dtype, every entry zero. *)
Definition np_zeros_like (a : ndarray) : ndarray :=
  np_zeros (nd_shape a) (nd_dtype a).

(** ** Python values handed to the setters *)

Inductive pyobj : Type :=
| PyNone
| PyBool (b : bool)
| PyInt (z : Z)
| PyFloat (f : float)
| PySeq (items : list pyobj)      (* a list or a tuple *)
| PyArray (a : ndarray).

(** [isinstance(value, int)]: [bool] is a subclass of [int]. *)
Definition isinstance_int (value : pyobj) : bool :=
  match value with
  | PyInt _ | PyBool _ => true
  | _ => false
  end.

(** [numpy.isscalar(x)]: Python numbers are scalars; [None], sequences and
    arrays (0-d arrays included) are not. *)
Definition np_isscalar (x : pyobj) : bool :=
  match x with
  | PyBool _ | PyInt _ | PyFloat _ => true
  | PyNone | PySeq _ | PyArray _ => false
  end.

(** Python's [int] and [float], the numbers a mass or a timestep is given
    as.  Comparing an [int] with a float zero is exact in Python. *)
Inductive pynumber : Type :=
| NInt (z : Z)
| NFloat (f : float).

(** [value < 0] *)
Definition num_ltb0 (value : pynumber) : bool :=
  match value with
  | NInt z => z <? 0
  | NFloat f => (f <? 0)%float
  end.

(** [value <= 0.0] *)
Definition num_leb0 (value : pynumber) : bool :=
  match value with
  | NInt z => z <=? 0
  | NFloat f => (f <=? 0)%float
  end.

(** ** [numpy.array(value, dtype=numpy.float64, ndmin=k)]

    NumPy first discovers the shape of the nested sequences, then casts the
    leaves.  Sequences whose items disagree in shape are ragged and cannot
    be a float64 array ([ValueError]); so is nesting deeper than NumPy's
    maximal rank. *)

Definition NPY_MAXDIMS : nat := 32.

Fixpoint discover_shape (v : pyobj) : result shape_t :=
  match v with
  | PySeq items =>
      shs <-? (fix item_shapes (l : list pyobj) : result (list shape_t) :=
                 match l with
                 | [] => Ok []
                 | x :: t =>
                     sh <-? discover_shape x ;;
                     shs <-? item_shapes t ;;
                     Ok (sh :: shs)
                 end) items ;;
      match shs with
      | [] => Ok [0]
      | sh :: rest =>
          if forallb (shape_eqb sh) rest
          then Ok (Z.of_nat (length items) :: sh)
          else Raise ValueError
      end
  | PyArray a => Ok (nd_shape a)
  | PyNone | PyBool _ | PyInt _ | PyFloat _ => Ok []
  end.

Fixpoint flat_data (v : pyobj) : result (list float) :=
  match v with
  | PyNone => Ok [nan]
  | PyBool b => Ok [if b then one else zero]
  | PyInt z => x <-? float_of_int z ;; Ok [x]
  | PyFloat f => Ok [f]
  | PySeq items =>
      (fix items_data (l : list pyobj) : result (list float) :=
         match l with
         | [] => Ok []
         | x :: t =>
             d <-? flat_data x ;;
             ds <-? items_data t ;;
             Ok (d ++ ds)
         end) items
  | PyArray a => Ok (nd_float_data a)
  end.

(** [ndmin]: unit axes are prepended until the rank is at least [ndmin]. *)
Definition promote (ndmin : nat) (sh : shape_t) : shape_t :=
  repeat 1 (ndmin - length sh)%nat ++ sh.

Definition np_array (value : pyobj) (ndmin : nat) : result ndarray :=
  sh <-? discover_shape value ;;
  if (NPY_MAXDIMS <? length sh)%nat then Raise ValueError
  else
    d <-? flat_data value ;;
    Ok (NdFloat64 (promote ndmin sh) d).

(** [numpy.repeat(a, n)]: the flattened array, each entry [n] times. *)
Definition np_repeat (a : ndarray) (n : nat) : ndarray :=
  let d := flat_map (fun x => repeat x n) (nd_float_data a) in
  NdFloat64 [Z.of_nat (length d)] d.

(** [numpy.any(a <= 0)] *)
Definition np_any_le0 (a : ndarray) : bool :=
  existsb (fun x => (x <=? 0)%float) (nd_float_data a).

(** An object built by [__init__]: [blank] is the object before any
    attribute is bound (its field values are never read), [init] the body
    of [__init__].  No object exists when [init] raises. *)
Definition construct {S : Type} (blank : S) (init : M S unit) : result S :=
  match init blank with
  | (Ok _, self) => Ok self
  | (Raise e, _) => Raise e
  end.

(** ** [state.Box] *)

Record Box : Type := mkBox { _L : ndarray }.

Definition Box_blank : Box := mkBox (NdFloat64 [] []).

Module BoxM.

(** [Box.L] setter *)
Definition L_set (value : pyobj) : M Box unit :=
  L <- lift (np_array value 1) ;;
  let L := if shape_eqb (nd_shape L) [1] then np_repeat L 3 else L in
  if negb (shape_eqb (nd_shape L) [3]) then raise TypeError
  else if np_any_le0 L then raise ValueError
  else modify (fun _ => mkBox L).

(** [Box.__init__] *)
Definition init (L : pyobj) : result Box :=
  construct Box_blank (L_set L).

(** [Box.volume] *)
Definition volume (self : Box) : result float :=
  Raise NotImplementedError.

(** [Box.wrap]: the wrapped positions, with the updated images when an
    [image] was passed. *)
Definition wrap (self : Box) (position : pyobj) (image : option pyobj)
  : result (ndarray * option ndarray) :=
  Raise NotImplementedError.

(** [Box.minimum_image] *)
Definition minimum_image (self : Box) (vector : pyobj) : result ndarray :=
  Raise NotImplementedError.

End BoxM.

(** ** [state.State] *)

Record State : Type := mkState {
  _N : Z;
  _box : Box;
  _mass : pynumber;
  _counter : pyobj;
  _positions : ndarray;
  _images : ndarray;
  _velocities : option ndarray;
  _energies : option ndarray;
  _forces : option ndarray
}.

Definition with_box (v : Box) (s : State) : State :=
  mkState (_N s) v (_mass s) (_counter s) (_positions s) (_images s)
          (_velocities s) (_energies s) (_forces s).
Definition with_mass (v : pynumber) (s : State) : State :=
  mkState (_N s) (_box s) v (_counter s) (_positions s) (_images s)
          (_velocities s) (_energies s) (_forces s).
Definition with_counter (v : pyobj) (s : State) : State :=
  mkState (_N s) (_box s) (_mass s) v (_positions s) (_images s)
          (_velocities s) (_energies s) (_forces s).
Definition with_positions (v : ndarray) (s : State) : State :=
  mkState (_N s) (_box s) (_mass s) (_counter s) v (_images s)
          (_velocities s) (_energies s) (_forces s).
Definition with_images (v : ndarray) (s : State) : State :=
  mkState (_N s) (_box s) (_mass s) (_counter s) (_positions s) v
          (_velocities s) (_energies s) (_forces s).
Definition with_velocities (v : option ndarray) (s : State) : State :=
  mkState (_N s) (_box s) (_mass s) (_counter s) (_positions s) (_images s)
          v (_energies s) (_forces s).
Definition with_energies (v : option ndarray) (s : State) : State :=
  mkState (_N s) (_box s) (_mass s) (_counter s) (_positions s) (_images s)
          (_velocities s) v (_forces s).
Definition with_forces (v : option ndarray) (s : State) : State :=
  mkState (_N s) (_box s) (_mass s) (_counter s) (_positions s) (_images s)
          (_velocities s) (_energies s) v.

(** The object after [self._N = N], no other attribute bound yet. *)
Definition State_blank (N : Z) : State :=
  mkState N Box_blank (NInt 0) PyNone (NdFloat64 [] []) (NdFloat64 [] [])
          None None None.

Module StateM.

(** [box] setter.  The parameter is typed, so the [isinstance(value, Box)]
    test of the source always passes. *)
Definition box_set (value : Box) : M State unit :=
  modify (with_box value).

(** [mass] setter *)
Definition mass_set (value : pynumber) : M State unit :=
  if num_leb0 value then raise ValueError
  else modify (with_mass value).

(** [counter] setter *)
Definition counter_set (value : pyobj) : M State unit :=
  if negb (isinstance_int value) then raise TypeError
  else modify (with_counter value).

(** [positions] setter *)
Definition positions_set (value : pyobj) : M State unit :=
  r <- lift (np_array value 2) ;;
  N <- gets _N ;;
  if negb (shape_eqb (nd_shape r) [N; 3]) then raise TypeError
  else modify (with_positions r).

(** [images] setter *)
Definition images_set (value : pyobj) : M State unit :=
  im <- lift (np_array value 2) ;;
  N <- gets _N ;;
  if negb (shape_eqb (nd_shape im) [N; 3]) then raise TypeError
  else modify (with_images im).

(** [velocities] setter *)
Definition velocities_set (value : pyobj) : M State unit :=
  match value with
  | PyNone => modify (with_velocities None)
  | _ =>
      v <- lift (np_array value 2) ;;
      N <- gets _N ;;
      if negb (shape_eqb (nd_shape v) [N; 3]) then raise TypeError
      else modify (with_velocities (Some v))
  end.

(** [energies] setter *)
Definition energies_set (value : pyobj) : M State unit :=
  match value with
  | PyNone => modify (with_energies None)
  | _ =>
      e <- lift (np_array value 1) ;;
      N <- gets _N ;;
      if negb (shape_eqb (nd_shape e) [N]) then raise TypeError
      else modify (with_energies (Some e))
  end.

(** [forces] setter *)
Definition forces_set (value : pyobj) : M State unit :=
  match value with
  | PyNone => modify (with_forces None)
  | _ =>
      f <- lift (np_array value 2) ;;
      N <- gets _N ;;
      if negb (shape_eqb (nd_shape f) [N; 3]) then raise TypeError
      else modify (with_forces (Some f))
  end.

(** [State.__init__].  [N] is a Python [int], so of the test
    [N < 0 or not isinstance(N,int)] only the sign can fail. *)
Definition init (N : Z) (box : Box) (mass : pynumber) (counter : pyobj)
  : result State :=
  if N <? 0 then Raise ValueError
  else
    construct (State_blank N)
      (box_set box ;;
       mass_set mass ;;
       counter_set counter ;;
       positions_set (PyArray (np_zeros [N; 3] float64)) ;;
       images_set (PyArray (np_zeros [N; 3] int32)) ;;
       velocities_set PyNone ;;
       energies_set PyNone ;;
       forces_set PyNone).

End StateM.

(** ** [potential.LennardJones] *)

Record LennardJones : Type := mkLennardJones {
  epsilon : pynumber;
  sigma : pynumber;
  rcut : pynumber;
  shift : bool
}.

Module LJ.

(** [LennardJones.__init__] *)
Definition init (epsilon sigma rcut : pynumber) (shift : bool)
  : LennardJones :=
  mkLennardJones epsilon sigma rcut shift.

(** [LennardJones.compute]: per-particle energies and forces. *)
Definition compute (self : LennardJones) (state : State)
  : result (ndarray * ndarray) :=
  Raise NotImplementedError.

(** [LennardJones.energy_force]: the energy and the force over [r]. *)
Definition energy_force (self : LennardJones) (rsq : pyobj)
  : result (pyobj * pyobj) :=
  Raise NotImplementedError.

(** [LennardJones._zeros] *)
Definition _zeros (x : pyobj) : result (ndarray * ndarray * bool) :=
  let s := np_isscalar x in
  x <-? np_array x 1 ;;
  if negb (length (nd_shape x) =? 1)%nat then Raise TypeError
  else Ok (x, np_zeros_like x, s).

End LJ.

(** ** [dynamics.VelocityVerlet] *)

Record VelocityVerlet : Type := mkVelocityVerlet {
  _dt : pynumber;
  _potential : LennardJones
}.

Definition VelocityVerlet_blank : VelocityVerlet :=
  mkVelocityVerlet (NInt 0) (mkLennardJones (NInt 0) (NInt 0) (NInt 0) false).

Module VV.

(** [dt] setter *)
Definition dt_set (value : pynumber) : M VelocityVerlet unit :=
  if num_ltb0 value then raise ValueError
  else modify (fun self => mkVelocityVerlet value (_potential self)).

(** [VelocityVerlet.__init__]: [self.dt = dt], then
    [self.potential = potential], a plain attribute. *)
Definition init (dt : pynumber) (potential : LennardJones)
  : result VelocityVerlet :=
  construct VelocityVerlet_blank
    (dt_set dt ;;
     modify (fun self => mkVelocityVerlet (_dt self) potential)).

(** [VelocityVerlet.advance] *)
Definition advance (self : VelocityVerlet) : M State unit :=
  raise NotImplementedError.

End VV.

(** ** Driving a [State]

    What a driver can do to a state through its public interface: assign
    an attribute, or hand the state to an integrator. *)

Inductive attr : Type := Positions | Images | Velocities | Energies | Forces.

(** The setter behind each array attribute. *)
Definition attr_set (a : attr) : pyobj -> M State unit :=
  match a with
  | Positions => StateM.positions_set
  | Images => StateM.images_set
  | Velocities => StateM.velocities_set
  | Energies => StateM.energies_set
  | Forces => StateM.forces_set
  end.

(** The stored array, [None] for an attribute that is unset. *)
Definition attr_get (a : attr) (s : State) : option ndarray :=
  match a with
  | Positions => Some (_positions s)
  | Images => Some (_images s)
  | Velocities => _velocities s
  | Energies => _energies s
  | Forces => _forces s
  end.

(** The state with the array stored in the attribute, and the state with
    an optional attribute unset. *)
Definition attr_put (a : attr) (x : ndarray) (s : State) : State :=
  match a with
  | Positions => with_positions x s
  | Images => with_images x s
  | Velocities => with_velocities (Some x) s
  | Energies => with_energies (Some x) s
  | Forces => with_forces (Some x) s
  end.

Definition attr_unset (a : attr) (s : State) : State :=
  match a with
  | Positions | Images => s
  | Velocities => with_velocities None s
  | Energies => with_energies None s
  | Forces => with_forces None s
  end.

(** The [ndmin] each setter converts with, and the shape it insists on. *)
Definition attr_ndmin (a : attr) : nat :=
  match a with
  | Energies => 1%nat
  | _ => 2%nat
  end.

Definition attr_shape (a : attr) (N : Z) : shape_t :=
  match a with
  | Energies => [N]
  | _ => [N; 3]
  end.

(** [velocities], [energies] and [forces] take [None] to mean "unset". *)
Definition attr_resets (a : attr) (value : pyobj) : bool :=
  match a, value with
  | (Velocities | Energies | Forces), PyNone => true
  | _, _ => false
  end.

Inductive op : Type :=
| SetBox (value : Box)
| SetMass (value : pynumber)
| SetCounter (value : pyobj)
| SetAttr (a : attr) (value : pyobj)
| Advance (integrator : VelocityVerlet).

Definition run_op (o : op) : M State unit :=
  match o with
  | SetBox value => StateM.box_set value
  | SetMass value => StateM.mass_set value
  | SetCounter value => StateM.counter_set value
  | SetAttr a value => attr_set a value
  | Advance integrator => VV.advance integrator
  end.

(** The states a driver can hold: a constructed one, and whatever an
    operation leaves behind, whether it returned or raised. *)
Inductive reachable : State -> Prop :=
| reach_init N box mass counter s :
    StateM.init N box mass counter = Ok s -> reachable s
| reach_step s o :
    reachable s -> reachable (snd (run_op o s)).

(** The part of the data model every reachable state satisfies. *)
Record state_inv (s : State) : Prop := {
  inv_N : 0 <= _N s;
  inv_counter : isinstance_int (_counter s) = true;
  inv_positions :
    nd_dtype (_positions s) = float64 /\ nd_shape (_positions s) = [_N s; 3];
  inv_images :
    nd_dtype (_images s) = float64 /\ nd_shape (_images s) = [_N s; 3]
}.

(** ** Vocabulary of the properties *)

(** The integer a Python [int] (or [bool]) stands for. *)
Definition py_int_value (v : pyobj) : option Z :=
  match v with
  | PyInt z => Some z
  | PyBool b => Some (Z.b2z b)
  | _ => None
  end.

(** The sign of a number, read off its representation: a float is negative
    when it is a nonzero finite number or an infinity with the sign bit
    set; NaN has no sign and both zeros are non-negative. *)
Inductive sign : Type := Negative | NonNegative | NotANumber.

Definition float_sign (f : float) : sign :=
  match Prim2SF f with
  | S754_nan => NotANumber
  | S754_zero _ => NonNegative
  | S754_infinity s | S754_finite s _ _ => if s then Negative else NonNegative
  end.

Definition num_sign (value : pynumber) : sign :=
  match value with
  | NInt (Zneg _) => Negative
  | NInt _ => NonNegative
  | NFloat f => float_sign f
  end.

(** A Python number, as opposed to [None], a sequence or an array. *)
Inductive py_scalar : pyobj -> Prop :=
| scalar_bool b : py_scalar (PyBool b)
| scalar_int z : py_scalar (PyInt z)
| scalar_float f : py_scalar (PyFloat f).

(** An array whose data fill its shape. *)
Definition nd_size (a : ndarray) : nat :=
  match a with
  | NdFloat64 _ d => length d
  | NdInt32 _ d => length d
  end.

Definition nd_wf (a : ndarray) : Prop :=
  Forall (fun n => 0 <= n) (nd_shape a)
  /\ Z.of_nat (nd_size a) = shape_size (nd_shape a).

(** Data that fill a shape of non-negative dimensions. *)
Definition fills (sh : shape_t) (d : list float) : Prop :=
  Forall (fun n => 0 <= n) sh /\ Z.of_nat (length d) = shape_size sh.

(** A value all of whose arrays are well formed. *)
Fixpoint pyobj_wf (v : pyobj) : Prop :=
  match v with
  | PySeq items =>
      (fix items_wf (l : list pyobj) : Prop :=
         match l with
         | [] => True
         | x :: t => pyobj_wf x /\ items_wf t
         end) items
  | PyArray a => nd_wf a
  | PyNone | PyBool _ | PyInt _ | PyFloat _ => True
  end.

(** [f] over a list, stopping at the first raise. *)
Section MapM.
Context {A B : Type} (f : A -> result B).

Fixpoint mapM_result (l : list A) : result (list B) :=
  match l with
  | [] => Ok []
  | x :: t =>
      y <-? f x ;;
      ys <-? mapM_result t ;;
      Ok (y :: ys)
  end.
End MapM.

(** Induction on values, with the hypothesis for every item of a
    sequence. *)
Section PyobjInd.
Variable P : pyobj -> Prop.
Hypothesis HNone : P PyNone.
Hypothesis HBool : forall b, P (PyBool b).
Hypothesis HInt : forall z, P (PyInt z).
Hypothesis HFloat : forall f, P (PyFloat f).
Hypothesis HSeq : forall items, Forall P items -> P (PySeq items).
Hypothesis HArray : forall a, P (PyArray a).

Fixpoint pyobj_nested_ind (v : pyobj) : P v :=
  match v with
  | PyNone => HNone
  | PyBool b => HBool b
  | PyInt z => HInt z
  | PyFloat f => HFloat f
  | PySeq items =>
      HSeq items
        ((fix all_items (l : list pyobj) : Forall P l :=
            match l with
            | [] => Forall_nil P
            | x :: t => Forall_cons x (pyobj_nested_ind x) (all_items t)
            end) items)
  | PyArray a => HArray a
  end.
End PyobjInd.

(** The states and values of the package's own tests. *)
Definition cube10 : Box := mkBox (NdFloat64 [3] [10; 10; 10]%float).

Definition ortho : Box := mkBox (NdFloat64 [3] [10; 15; 20]%float).

Definition state2 : State :=
  mkState 2 cube10 (NFloat 1) (PyInt 0)
          (NdFloat64 [2; 3] (repeat 0%float 6))
          (NdFloat64 [2; 3] (repeat 0%float 6))
          None None None.

Definition state1 : State :=
  mkState 1 cube10 (NFloat 10) (PyInt 0)
          (NdFloat64 [1; 3] (repeat 0%float 3))
          (NdFloat64 [1; 3] (repeat 0%float 3))
          None None None.

Definition lj_test : LennardJones :=
  LJ.init (NFloat 1.5) (NFloat 0.5) (NFloat 2.5) false.

(** ** Further vocabulary *)

(** How a number stands to zero, read off its representation: NaN is
    unordered, both float zeros and the integer zero are non-positive. *)
Inductive magnitude : Type := Positive | NonPositive | Unordered.

Definition float_magnitude (f : float) : magnitude :=
  match Prim2SF f with
  | S754_nan => Unordered
  | S754_zero _ => NonPositive
  | S754_infinity s | S754_finite s _ _ => if s then NonPositive else Positive
  end.

Definition num_magnitude (value : pynumber) : magnitude :=
  match value with
  | NInt (Zpos _) => Positive
  | NInt _ => NonPositive
  | NFloat f => float_magnitude f
  end.

(** A driver's operations one after the other, each on the state the
    previous one left, whether it returned or raised. *)
Definition run_ops (os : list op) (s : State) : State :=
  fold_left (fun s o => snd (run_op o s)) os s.

(** Three edge lengths, none of them [<= 0]. *)
Definition box_ok (b : Box) : Prop :=
  exists x y z,
    _L b = NdFloat64 [3] [x; y; z]
    /\ (x <=? 0)%float = false /\ (y <=? 0)%float = false
    /\ (z <=? 0)%float = false.

(** ** [write.XYZWriter]

    The file behind the handle is the list of the strings handed to
    [handle.write], in order; [flush] does not change it.  Opening the file
    ([__init__]) is not modelled: a writer starts from whatever its file
    holds.  [format_f] stands for Python's ['{:f}'.format] on a float, which
    cannot raise.  A call either returns ([Some tt]) or raises ([None]); what
    it had written by then stays written. *)

Module XYZ.
Import String.

Record XYZWriter : Type := mkXYZWriter { _handle : list string }.

Definition newline : string := String (Ascii.ascii_of_nat 10) EmptyString.

Definition dquote : string := String (Ascii.ascii_of_nat 34) EmptyString.

(** ['{:d}'.format(z)] on an int. *)
Definition format_d (z : Z) : string :=
  DecimalString.NilZero.string_of_int (Z.to_int z).

(** ['{:d}'.format(v)] on any value: an int or a bool prints as an integer,
    a 0-d integer array as its item; a float, [None], a sequence or any
    other array raises. *)
Definition format_d_obj (v : pyobj) : option string :=
  match v with
  | PyInt z => Some (format_d z)
  | PyBool b => Some (format_d (Z.b2z b))
  | PyArray (NdInt32 [] [z]) => Some (format_d z)
  | _ => None
  end.

(** [a[i]] as a number: [a] has to be 1-d and [i] in range. *)
Definition nd_item1 (a : ndarray) (i : nat) : option float :=
  match nd_shape a with
  | [n] =>
      if Z.of_nat i <? n then nth_error (nd_float_data a) i else None
  | _ => None
  end.

(** [a[i][j]] as a number: [a] has to be 2-d and both indices in range. *)
Definition nd_item2 (a : ndarray) (i j : nat) : option float :=
  match nd_shape a with
  | [n; m] =>
      if (Z.of_nat i <? n) && (Z.of_nat j <? m)
      then nth_error (nd_float_data a) (i * Z.to_nat m + j)
      else None
  | _ => None
  end.

(** The number of items [for r in a] goes through; a 0-d array cannot be
    iterated. *)
Definition nd_len (a : ndarray) : option nat :=
  match nd_shape a with
  | n :: _ => Some (Z.to_nat n)
  | [] => None
  end.

Definition handle_write (line : string) (self : XYZWriter) : XYZWriter :=
  mkXYZWriter (_handle self ++ [line]).

Section Format.
Variable format_f : float -> string.
Local Open Scope string_scope.

Definition count_line (N : Z) : string := format_d N ++ newline.

Definition lattice_line (l0 l1 l2 : float) (time : string) : string :=
  "Lattice=" ++ dquote
    ++ format_f l0 ++ " 0.0 0.0 0.0 "
    ++ format_f l1 ++ " 0.0 0.0 0.0 "
    ++ format_f l2 ++ dquote ++ " Time=" ++ time ++ newline.

Definition atom_line (x y z : float) : string :=
  "A " ++ format_f x ++ " " ++ format_f y ++ " " ++ format_f z ++ newline.

(** The loop [for r in state.positions], over the row indices left. *)
Fixpoint write_rows (positions : ndarray) (rows : list nat) (self : XYZWriter)
  : option unit * XYZWriter :=
  match rows with
  | [] => (Some tt, self)
  | i :: rest =>
      match nd_item2 positions i 0, nd_item2 positions i 1,
            nd_item2 positions i 2 with
      | Some x, Some y, Some z =>
          write_rows positions rest (handle_write (atom_line x y z) self)
      | _, _, _ => (None, self)
      end
  end.

(** [XYZWriter.write] *)
Definition write (state : State) (self : XYZWriter)
  : option unit * XYZWriter :=
  let self := handle_write (count_line (_N state)) self in
  let L := _L (_box state) in
  match nd_item1 L 0, nd_item1 L 1, nd_item1 L 2,
        format_d_obj (_counter state) with
  | Some l0, Some l1, Some l2, Some time =>
      let self := handle_write (lattice_line l0 l1 l2 time) self in
      match nd_len (_positions state) with
      | Some n => write_rows (_positions state) (seq 0 n) self
      | None => (None, self)
      end
  | _, _, _, _ => (None, self)
  end.

(** The frame of a state: the count line, the lattice line and one line
    per row of coordinates. *)
Fixpoint atom_lines (d : list float) : list string :=
  match d with
  | x :: y :: z :: rest => atom_line x y z :: atom_lines rest
  | _ => []
  end.

End Format.

End XYZ.

(** * Properties *)

(** ** Shapes and array conversion *)

Lemma shape_eqb_eq (s t : shape_t) : shape_eqb s t = true <-> s = t.
Proof.
  revert t; induction s as [|x s IH]; intros [|y t]; simpl;
    try (split; [discriminate | congruence]); try tauto.
  rewrite andb_true_iff, Z.eqb_eq, IH.
  split; [intros [-> ->]; reflexivity | intros E; inversion E; auto].
Qed.

Lemma shape_eqb_refl (s : shape_t) : shape_eqb s s = true.
Proof. apply shape_eqb_eq; reflexivity. Qed.

Lemma shape_eqb_neq (s t : shape_t) : s <> t -> shape_eqb s t = false.
Proof.
  intros H; destruct (shape_eqb s t) eqn:E; [|reflexivity].
  apply shape_eqb_eq in E; contradiction.
Qed.

Lemma discover_shape_seq (items : list pyobj) :
  discover_shape (PySeq items) =
  (shs <-? mapM_result discover_shape items ;;
   match shs with
   | [] => Ok [0]
   | sh :: rest =>
       if forallb (shape_eqb sh) rest
       then Ok (Z.of_nat (length items) :: sh)
       else Raise ValueError
   end).
Proof. reflexivity. Qed.

Lemma flat_data_seq (items : list pyobj) :
  flat_data (PySeq items) =
  (ds <-? mapM_result flat_data items ;; Ok (concat ds)).
Proof.
  simpl. induction items as [|x t IH]; [reflexivity|].
  simpl. destruct (flat_data x) as [d|e]; [|reflexivity]. simpl.
  rewrite IH. destruct (mapM_result flat_data t); reflexivity.
Qed.

Lemma promote_length (k : nat) (sh : shape_t) :
  length (promote k sh) = Nat.max k (length sh).
Proof. unfold promote. rewrite length_app, repeat_length. lia. Qed.

Lemma promote_size (k : nat) (sh : shape_t) :
  shape_size (promote k sh) = shape_size sh.
Proof.
  unfold promote. induction (k - length sh)%nat as [|n IH]; [reflexivity|].
  simpl repeat. simpl app. unfold shape_size in *. simpl. rewrite IH.
  destruct (fold_right Z.mul 1 sh); reflexivity.
Qed.

(** A successful conversion is float64, and its shape is the discovered
    shape of the value, promoted. *)
Lemma np_array_ok (v : pyobj) (k : nat) (a : ndarray) :
  np_array v k = Ok a ->
  exists sh d,
    discover_shape v = Ok sh /\ flat_data v = Ok d
    /\ (length sh <= NPY_MAXDIMS)%nat
    /\ a = NdFloat64 (promote k sh) d.
Proof.
  unfold np_array. destruct (discover_shape v) as [sh|e]; [|discriminate].
  simpl. destruct (NPY_MAXDIMS <? length sh)%nat eqn:Hmax; [discriminate|].
  destruct (flat_data v) as [d|e]; [|discriminate]. simpl.
  intros H; injection H as <-. exists sh, d.
  apply Nat.ltb_ge in Hmax. auto.
Qed.

Lemma np_array_dtype (v : pyobj) (k : nat) (a : ndarray) :
  np_array v k = Ok a -> nd_dtype a = float64.
Proof.
  intros H. apply np_array_ok in H as (sh & d & _ & _ & _ & ->). reflexivity.
Qed.

(** ** The array setters, in one equation *)

Lemma attr_set_eq (a : attr) (v : pyobj) (s : State) :
  attr_set a v s =
  if attr_resets a v then (Ok tt, attr_unset a s)
  else
    match np_array v (attr_ndmin a) with
    | Raise e => (Raise e, s)
    | Ok x =>
        if shape_eqb (nd_shape x) (attr_shape a (_N s))
        then (Ok tt, attr_put a x s)
        else (Raise TypeError, s)
    end.
Proof.
  assert (core : forall (k : nat) (sh : shape_t) (put : ndarray -> State -> State),
    (x <- lift (np_array v k) ;;
     N <- gets _N ;;
     if negb (shape_eqb (nd_shape x) sh) then raise TypeError
     else modify (put x)) s
    = match np_array v k with
      | Raise e => (Raise e, s)
      | Ok x =>
          if shape_eqb (nd_shape x) sh then (Ok tt, put x s)
          else (Raise TypeError, s)
      end).
  { intros k sh put. unfold bind, lift, gets, raise, modify.
    destruct (np_array v k) as [x|e]; [|reflexivity].
    destruct (shape_eqb (nd_shape x) sh); reflexivity. }
  destruct a; cbn [attr_set attr_ndmin attr_shape attr_put attr_unset].
  - replace (attr_resets Positions v) with false by (destruct v; reflexivity).
    exact (core 2%nat [_N s; 3] with_positions).
  - replace (attr_resets Images v) with false by (destruct v; reflexivity).
    exact (core 2%nat [_N s; 3] with_images).
  - destruct v; try reflexivity;
      exact (core 2%nat [_N s; 3] (fun x => with_velocities (Some x))).
  - destruct v; try reflexivity;
      exact (core 1%nat [_N s] (fun x => with_energies (Some x))).
  - destruct v; try reflexivity;
      exact (core 2%nat [_N s; 3] (fun x => with_forces (Some x))).
Qed.

(** A setter that raises has changed nothing. *)
Lemma attr_set_raise_unchanged (a : attr) (v : pyobj) (s s' : State) (e : exn) :
  attr_set a v s = (Raise e, s') -> s' = s.
Proof.
  rewrite attr_set_eq. destruct (attr_resets a v); [discriminate|].
  destruct (np_array v (attr_ndmin a)) as [x|e0].
  - destruct (shape_eqb _ _); [discriminate|]. congruence.
  - congruence.
Qed.

(** ** Converted arrays are well formed *)

Lemma pyobj_wf_seq (items : list pyobj) :
  pyobj_wf (PySeq items) <-> Forall pyobj_wf items.
Proof.
  simpl. induction items as [|x t IH].
  - split; [constructor | trivial].
  - rewrite IH. split.
    + intros [Hx Ht]; constructor; assumption.
    + intros H; inversion H; auto.
Qed.

Lemma mapM_result_length {A B : Type} (f : A -> result B) (l : list A)
      (ys : list B) :
  mapM_result f l = Ok ys -> length ys = length l.
Proof.
  revert ys; induction l as [|x t IH]; simpl; intros ys H.
  - injection H as <-; reflexivity.
  - destruct (f x) as [y|e]; [|discriminate]. simpl in H.
    destruct (mapM_result f t) as [ys'|e]; [|discriminate]. simpl in H.
    injection H as <-. simpl. rewrite (IH ys'); reflexivity.
Qed.

Lemma forallb_shape_eqb (sh : shape_t) (l : list shape_t) :
  forallb (shape_eqb sh) l = true -> Forall (eq sh) l.
Proof.
  induction l as [|x l IH]; simpl; [constructor|].
  rewrite andb_true_iff, shape_eqb_eq. intros [-> H]. constructor; auto.
Qed.

Lemma items_fill (items : list pyobj) :
  Forall (fun v => forall sh d,
            discover_shape v = Ok sh -> flat_data v = Ok d -> fills sh d)
         items ->
  forall shs ds,
    mapM_result discover_shape items = Ok shs ->
    mapM_result flat_data items = Ok ds ->
    Forall2 fills shs ds.
Proof.
  induction 1 as [|x t Hx _ IH]; simpl; intros shs ds Hs Hd.
  - injection Hs as <-; injection Hd as <-; constructor.
  - destruct (discover_shape x) as [sh|e]; [|discriminate]. simpl in Hs.
    destruct (mapM_result discover_shape t) as [shs'|e]; [|discriminate].
    destruct (flat_data x) as [d|e]; [|discriminate]. simpl in Hd.
    destruct (mapM_result flat_data t) as [ds'|e]; [|discriminate].
    simpl in Hs, Hd. injection Hs as <-; injection Hd as <-.
    constructor; [apply Hx; reflexivity | apply IH; reflexivity].
Qed.

Lemma concat_fill (sh : shape_t) (shs : list shape_t) (ds : list (list float)) :
  Forall2 fills shs ds -> Forall (eq sh) shs ->
  Z.of_nat (length (concat ds)) = Z.of_nat (length shs) * shape_size sh.
Proof.
  induction 1 as [|sh' d shs ds [_ Hd] _ IH]; intros Hall; [reflexivity|].
  inversion Hall as [|? ? <- Hall']; subst.
  simpl concat. rewrite length_app, Nat2Z.inj_add, Hd, (IH Hall').
  simpl length. lia.
Qed.

(** The data of a converted value fill its discovered shape. *)
Lemma discover_fills (v : pyobj) :
  pyobj_wf v ->
  forall sh d, discover_shape v = Ok sh -> flat_data v = Ok d -> fills sh d.
Proof.
  induction v as [| b | z | f | items IH | a] using pyobj_nested_ind;
    intros Hwf sh d Hs Hd.
  - injection Hs as <-; injection Hd as <-; split; [constructor|reflexivity].
  - injection Hs as <-; injection Hd as <-; split; [constructor|reflexivity].
  - injection Hs as <-. simpl in Hd.
    destruct (float_of_int z); [|discriminate].
    injection Hd as <-; split; [constructor|reflexivity].
  - injection Hs as <-; injection Hd as <-; split; [constructor|reflexivity].
  - rewrite discover_shape_seq in Hs. rewrite flat_data_seq in Hd.
    apply pyobj_wf_seq in Hwf.
    destruct (mapM_result discover_shape items) as [shs|e] eqn:Es;
      [|discriminate].
    destruct (mapM_result flat_data items) as [ds|e] eqn:Ed; [|discriminate].
    simpl in Hs, Hd. injection Hd as <-.
    assert (F2 : Forall2 fills shs ds).
    { apply (items_fill items); [|assumption|assumption].
      rewrite Forall_forall in IH, Hwf |- *.
      intros x Hx sh' d' H1 H2. exact (IH x Hx (Hwf x Hx) sh' d' H1 H2). }
    pose proof (mapM_result_length _ _ _ Es) as Hlen.
    destruct shs as [|sh0 rest].
    + injection Hs as <-. inversion F2; subst. split; [|reflexivity].
      constructor; [lia|constructor].
    + destruct (forallb (shape_eqb sh0) rest) eqn:Eall; [|discriminate].
      injection Hs as <-.
      assert (Hall : Forall (eq sh0) (sh0 :: rest)).
      { constructor; [reflexivity | apply forallb_shape_eqb; assumption]. }
      inversion F2 as [|? d0 ? ds0 [Hnn _] _]; subst. split.
      * constructor; [lia | assumption].
      * rewrite (concat_fill sh0 _ _ F2 Hall), Hlen.
        unfold shape_size; simpl; reflexivity.
  - simpl in Hs, Hd. injection Hs as <-; injection Hd as <-.
    destruct Hwf as [Hnn Hsz]. split; [assumption|].
    rewrite <- Hsz. destruct a; simpl; [|rewrite length_map]; reflexivity.
Qed.

Lemma np_array_wf (v : pyobj) (k : nat) (a : ndarray) :
  pyobj_wf v -> np_array v k = Ok a -> nd_wf a.
Proof.
  intros Hwf H. apply np_array_ok in H as (sh & d & Hs & Hd & _ & ->).
  destruct (discover_fills v Hwf sh d Hs Hd) as [Hnn Hsz].
  split; simpl.
  - unfold promote. apply Forall_app; split; [|assumption].
    apply Forall_forall. intros x Hx. apply repeat_spec in Hx. lia.
  - rewrite promote_size. assumption.
Qed.

(** ** Construction and the invariant of a driven state *)

Example cube10_built : BoxM.init (PyFloat 10) = Ok cube10.
Proof. reflexivity. Qed.

Example ortho_built :
  BoxM.init (PySeq [PyFloat 10; PyFloat 15; PyFloat 20]) = Ok ortho.
Proof. reflexivity. Qed.

Example state2_built : StateM.init 2 cube10 (NFloat 1) (PyInt 0) = Ok state2.
Proof. reflexivity. Qed.

Example state1_built : StateM.init 1 cube10 (NFloat 10) (PyInt 0) = Ok state1.
Proof. reflexivity. Qed.

Lemma np_array_zeros (N : Z) (dt : dtype) :
  exists d, np_array (PyArray (np_zeros [N; 3] dt)) 2 = Ok (NdFloat64 [N; 3] d).
Proof. destruct dt; eexists; reflexivity. Qed.

(** What a successful [State.__init__] has checked and built. *)
Lemma init_ok (N : Z) (box : Box) (mass : pynumber) (counter : pyobj)
      (s : State) :
  StateM.init N box mass counter = Ok s ->
  0 <= N /\ num_leb0 mass = false /\ isinstance_int counter = true
  /\ exists dp di,
      s = mkState N box mass counter (NdFloat64 [N; 3] dp)
                  (NdFloat64 [N; 3] di) None None None.
Proof.
  unfold StateM.init. destruct (N <? 0) eqn:HN; [discriminate|].
  apply Z.ltb_ge in HN.
  unfold construct, bind. cbn [StateM.box_set modify].
  unfold StateM.mass_set. destruct (num_leb0 mass); [discriminate|].
  cbn [modify]. unfold StateM.counter_set.
  destruct (isinstance_int counter); [|discriminate].
  cbn [negb modify].
  change StateM.positions_set with (attr_set Positions).
  change StateM.images_set with (attr_set Images).
  rewrite attr_set_eq. cbn [attr_resets attr_ndmin attr_shape].
  destruct (np_array_zeros N float64) as [dp ->].
  cbn [nd_shape with_counter with_mass with_box State_blank _N].
  rewrite shape_eqb_refl. cbn [attr_put with_positions].
  rewrite attr_set_eq. cbn [attr_resets attr_ndmin attr_shape].
  destruct (np_array_zeros N int32) as [di ->].
  cbn [nd_shape _N]. rewrite shape_eqb_refl.
  intros H; injection H as <-.
  repeat split; try assumption. exists dp, di. reflexivity.
Qed.

Lemma attr_put_N (a : attr) (x : ndarray) (s : State) :
  _N (attr_put a x s) = _N s.
Proof. destruct a; reflexivity. Qed.

Lemma attr_set_inv (a : attr) (v : pyobj) (s : State) :
  state_inv s -> state_inv (snd (attr_set a v s)).
Proof.
  intros I. rewrite attr_set_eq.
  destruct (attr_resets a v).
  { destruct a, I; constructor; assumption. }
  destruct (np_array v (attr_ndmin a)) as [x|e] eqn:Hx; [|exact I].
  destruct (shape_eqb _ _) eqn:Hsh; [|exact I].
  apply shape_eqb_eq in Hsh. apply np_array_dtype in Hx.
  destruct a, I; constructor; simpl in *; auto.
Qed.

Lemma run_op_inv (o : op) (s : State) :
  state_inv s -> state_inv (snd (run_op o s)).
Proof.
  intros I. destruct o as [b | m | c | a v | ig]; simpl.
  - destruct I; constructor; assumption.
  - unfold StateM.mass_set. destruct (num_leb0 m); [exact I|].
    destruct I; constructor; assumption.
  - unfold StateM.counter_set. destruct (isinstance_int c) eqn:Hc; [|exact I].
    destruct I; constructor; assumption.
  - apply attr_set_inv; assumption.
  - exact I.
Qed.

Lemma reachable_inv (s : State) : reachable s -> state_inv s.
Proof.
  induction 1 as [N box mass counter s Hinit | s o _ IH].
  - apply init_ok in Hinit as (HN & _ & Hc & dp & di & ->).
    constructor; simpl; auto.
  - apply run_op_inv; assumption.
Qed.

Lemma state2_reachable : reachable state2.
Proof. exact (reach_init 2 cube10 (NFloat 1) (PyInt 0) state2 eq_refl). Defined.

Lemma state1_reachable : reachable state1.
Proof. exact (reach_init 1 cube10 (NFloat 10) (PyInt 0) state1 eq_refl). Defined.

(** ** The claims *)

(** C1. [Box.wrap] is documented, and tested, to return the wrapped
    position and the updated image, with [wrapped + L*image] the original
    coordinate; (11,-1,18) in a 10 x 15 x 20 box should come back as
    (1,14,18) with image (1,-1,0).  The method body is a bare
    [raise NotImplementedError()]: on every box, position and image,
    the test's input included, the call raises and returns nothing. *)
Theorem wrap_raises_not_implemented :
  (forall (self : Box) (position : pyobj) (image : option pyobj),
     BoxM.wrap self position image = Raise NotImplementedError)
  /\ BoxM.wrap ortho (PySeq [PyInt 11; PyInt (-1); PyInt 18])
                     (Some (PySeq [PyInt 0; PyInt 0; PyInt 0]))
     = Raise NotImplementedError.
Proof. split; reflexivity. Qed.

(** C2. [LennardJones.compute] is documented to return per-particle
    energies and forces whose forces cancel pairwise.  Its body is a bare
    [raise NotImplementedError()]: for every potential and every state it
    raises, so no force array is returned at all. *)
Theorem compute_raises_not_implemented :
  forall (self : LennardJones) (state : State),
    LJ.compute self state = Raise NotImplementedError.
Proof. reflexivity. Qed.

(** C3. [LennardJones.energy_force] is documented to return infinite
    energy and force at [rsq = 0] without raising.  Its body is a bare
    [raise NotImplementedError()]: at [rsq = 0.0], as at every other
    argument, the call raises. *)
Theorem energy_force_raises_not_implemented :
  (forall (self : LennardJones) (rsq : pyobj),
     LJ.energy_force self rsq = Raise NotImplementedError)
  /\ LJ.energy_force lj_test (PyFloat 0) = Raise NotImplementedError.
Proof. split; reflexivity. Qed.

(** C4. In every state a driver can hold (constructed, then driven by any
    assignments) the stored images are an N x 3 array, but of dtype
    float64, never of an integer type: the [images] setter converts with
    [dtype=numpy.float64], also the int32 zeros [__init__] hands it. *)
Theorem images_stored_as_float64 (s : State) :
  reachable s ->
  nd_shape (_images s) = [_N s; 3]
  /\ nd_dtype (_images s) = float64
  /\ nd_dtype (_images s) <> int32.
Proof.
  intros R. destruct (reachable_inv s R) as [_ _ _ [Hd Hs]].
  rewrite Hd. repeat split; [assumption | discriminate].
Qed.

(** C4 at the state of the package's tests, [State(2, Box(10.0))]. *)
Lemma images_stored_as_float64_witness :
  nd_shape (_images state2) = [_N state2; 3]
  /\ nd_dtype (_images state2) = float64
  /\ nd_dtype (_images state2) <> int32.
Proof. exact (images_stored_as_float64 state2 state2_reachable). Defined.

(** C5, as the spec states it, fails: the counter setter accepts a negative
    integer, at construction and at assignment. *)
Lemma counter_negative_accepted :
  StateM.counter_set (PyInt (-1)) state2
    = (Ok tt, with_counter (PyInt (-1)) state2)
  /\ StateM.init 2 cube10 (NFloat 1) (PyInt (-1))
     = Ok (with_counter (PyInt (-1)) state2)
  /\ reachable (with_counter (PyInt (-1)) state2)
  /\ py_int_value (_counter (with_counter (PyInt (-1)) state2)) = Some (-1)
  /\ -1 < 0.
Proof.
  repeat split.
  exact (reach_step state2 (SetCounter (PyInt (-1))) state2_reachable).
Qed.

(** C5, amended.  The step counter is at all times an integer (a Python
    [int], [bool] included), of either sign: in every state a driver can
    hold the counter is an integer; an assignment of an integer stores it
    as given and touches nothing else; an assignment of anything else
    raises [TypeError] on the spot and changes nothing; and construction
    with a non-integer counter raises [TypeError]. *)
Theorem counter_always_integer :
  (forall s, reachable s -> exists z, py_int_value (_counter s) = Some z)
  /\ (forall s v z,
        py_int_value v = Some z ->
        StateM.counter_set v s = (Ok tt, with_counter v s))
  /\ (forall s v,
        py_int_value v = None ->
        StateM.counter_set v s = (Raise TypeError, s))
  /\ (forall N box mass v,
        py_int_value v = None -> 0 <= N -> num_leb0 mass = false ->
        StateM.init N box mass v = Raise TypeError).
Proof.
  repeat split.
  - intros s R. destruct (reachable_inv s R) as [_ Hc _ _].
    destruct (_counter s); try discriminate; eexists; reflexivity.
  - intros s v z H. destruct v; try discriminate; reflexivity.
  - intros s v H. destruct v; try discriminate; reflexivity.
  - intros N box mass v H HN Hm. unfold StateM.init.
    apply Z.ltb_ge in HN. rewrite HN.
    unfold construct, bind. cbn [StateM.box_set modify].
    unfold StateM.mass_set. rewrite Hm. cbn [modify].
    destruct v; try discriminate; reflexivity.
Qed.

(** C5 at [State(2, Box(10.0))]: the counter 1 is stored, 1.5 is refused
    by the setter and by the constructor. *)
Lemma counter_always_integer_witness :
  (exists z, py_int_value (_counter state2) = Some z)
  /\ StateM.counter_set (PyInt 1) state2 = (Ok tt, with_counter (PyInt 1) state2)
  /\ StateM.counter_set (PyFloat 1.5) state2 = (Raise TypeError, state2)
  /\ StateM.init 2 cube10 (NFloat 1) (PyFloat 1.5) = Raise TypeError.
Proof.
  destruct counter_always_integer as (Hinv & Hok & Hbad & Hinit).
  split; [|split; [|split]].
  - exact (Hinv state2 state2_reachable).
  - exact (Hok state2 (PyInt 1) 1 eq_refl).
  - exact (Hbad state2 (PyFloat 1.5) eq_refl).
  - apply (Hinit 2 cube10 (NFloat 1) (PyFloat 1.5) eq_refl); [lia | reflexivity].
Defined.

(** The test [f < 0] on a float agrees with the sign of its representation. *)
Lemma float_ltb0_sign (f : float) :
  (f <? 0)%float = match float_sign f with Negative => true | _ => false end.
Proof.
  rewrite ltb_spec. unfold float_sign.
  replace (Prim2SF 0) with (S754_zero false) by reflexivity.
  destruct (Prim2SF f) as [s | s | | s m e]; try destruct s; reflexivity.
Qed.

Lemma num_ltb0_sign (value : pynumber) :
  num_ltb0 value = match num_sign value with Negative => true | _ => false end.
Proof.
  destruct value as [z | f]; simpl.
  - destruct z; reflexivity.
  - apply float_ltb0_sign.
Qed.

(** C6.  A negative timestep is refused when it is assigned, by the setter
    and hence by [__init__], with [ValueError] and with the integrator
    left as it was; a non-negative timestep (an int, a finite float of
    either zero, or +infinity) is stored.  A NaN, which has no sign, is
    stored too. *)
Theorem dt_sign_checked_at_assignment
        (value : pynumber) (self : VelocityVerlet) (potential : LennardJones) :
  match num_sign value with
  | Negative =>
      VV.dt_set value self = (Raise ValueError, self)
      /\ VV.init value potential = Raise ValueError
  | NonNegative | NotANumber =>
      VV.dt_set value self
        = (Ok tt, mkVelocityVerlet value (_potential self))
      /\ VV.init value potential = Ok (mkVelocityVerlet value potential)
  end.
Proof.
  unfold VV.init, construct, bind, VV.dt_set.
  rewrite num_ltb0_sign.
  destruct (num_sign value); split; reflexivity.
Qed.

Example dt_test_values :
  VV.init (NFloat 0.1) lj_test = Ok (mkVelocityVerlet (NFloat 0.1) lj_test)
  /\ VV.dt_set (NFloat 0.2) (mkVelocityVerlet (NFloat 0.1) lj_test)
     = (Ok tt, mkVelocityVerlet (NFloat 0.2) lj_test)
  /\ VV.dt_set (NFloat (-0.1)) (mkVelocityVerlet (NFloat 0.2) lj_test)
     = (Raise ValueError, mkVelocityVerlet (NFloat 0.2) lj_test)
  /\ VV.dt_set (NInt 0) (mkVelocityVerlet (NFloat 0.2) lj_test)
     = (Ok tt, mkVelocityVerlet (NInt 0) lj_test).
Proof. repeat split. Qed.

Lemma attr_shape_length (a : attr) (N : Z) :
  length (attr_shape a N) = attr_ndmin a.
Proof. destruct a; reflexivity. Qed.

Lemma attr_shape_hd (a : attr) (N : Z) : hd_error (attr_shape a N) = Some N.
Proof. destruct a; reflexivity. Qed.

Lemma promote_full (k : nat) (sh : shape_t) :
  (k <= length sh)%nat -> promote k sh = sh.
Proof.
  intros H. unfold promote.
  replace (k - length sh)%nat with 0%nat by lia. reflexivity.
Qed.

(** C7, as the spec states it, fails: with N = 1 a rank-1 value of three
    numbers is assigned to [positions], and a bare number (rank 0) to
    [energies]; both are stored and change the state. *)
Lemma low_rank_value_accepted :
  _N state1 = 1
  /\ discover_shape (PySeq [PyInt 1; PyInt 2; PyInt 3]) = Ok [3]
  /\ attr_set Positions (PySeq [PyInt 1; PyInt 2; PyInt 3]) state1
     = (Ok tt, with_positions (NdFloat64 [1; 3] [1; 2; 3]%float) state1)
  /\ discover_shape (PyFloat 5) = Ok []
  /\ attr_set Energies (PyFloat 5) state1
     = (Ok tt, with_energies (Some (NdFloat64 [1] [5]%float)) state1).
Proof. repeat split. Qed.

(** C7, amended.  An assignment to [positions], [images], [velocities],
    [energies] or [forces] (other than [None] to the last three) raises
    [TypeError] and leaves every attribute unchanged whenever the value
    converts to an array whose shape, after [ndmin] has prepended unit axes
    up to rank 2 (rank 1 for [energies]), is not (N,3) ((N,) for
    [energies]); so does every value of too high a rank, and every value of
    the expected rank with a wrong leading dimension.  A value whose
    promoted shape is exact is stored, its own rank being lower or not.
    Whatever a setter raises, it has changed nothing. *)
Theorem wrong_shape_rejected_without_effect
        (a : attr) (s : State) (v : pyobj) :
  attr_resets a v = false ->
  (forall x,
      np_array v (attr_ndmin a) = Ok x ->
      nd_shape x <> attr_shape a (_N s) ->
      attr_set a v s = (Raise TypeError, s))
  /\ (forall x sh,
        np_array v (attr_ndmin a) = Ok x ->
        discover_shape v = Ok sh ->
        (attr_ndmin a < length sh)%nat
        \/ (length sh = attr_ndmin a /\ hd_error sh <> Some (_N s)) ->
        attr_set a v s = (Raise TypeError, s))
  /\ (forall x,
        np_array v (attr_ndmin a) = Ok x ->
        nd_shape x = attr_shape a (_N s) ->
        attr_set a v s = (Ok tt, attr_put a x s))
  /\ (forall e s', attr_set a v s = (Raise e, s') -> s' = s).
Proof.
  intros Hres.
  assert (wrong : forall x,
             np_array v (attr_ndmin a) = Ok x ->
             nd_shape x <> attr_shape a (_N s) ->
             attr_set a v s = (Raise TypeError, s)).
  { intros x Hx Hne. rewrite attr_set_eq, Hres, Hx.
    rewrite (shape_eqb_neq _ _ Hne). reflexivity. }
  split; [exact wrong|]. split; [|split].
  - intros x sh Hx Hsh Hbad. apply (wrong x Hx).
    apply np_array_ok in Hx as (sh' & d & Hsh' & _ & _ & ->).
    rewrite Hsh in Hsh'. injection Hsh' as <-. simpl.
    intros E. destruct Hbad as [Hhigh | [Hlen Hhd]].
    + apply (f_equal (@length Z)) in E.
      rewrite promote_length, attr_shape_length in E. lia.
    + rewrite promote_full in E by lia.
      rewrite E, attr_shape_hd in Hhd. congruence.
  - intros x Hx Heq. rewrite attr_set_eq, Hres, Hx, Heq, shape_eqb_refl.
    reflexivity.
  - intros e s'. apply attr_set_raise_unchanged.
Qed.

(** C7 at the assignments [test_positions] and [test_energies] expect to
    fail, with N = 2. *)
Lemma wrong_shape_rejected_without_effect_witness :
  attr_set Positions (PySeq [PyInt 1; PyInt 2; PyInt 3]) state2
    = (Raise TypeError, state2)
  /\ attr_set Energies
       (PySeq [PySeq [PyInt 1; PyInt 2]; PySeq [PyInt 3; PyInt 4]]) state2
     = (Raise TypeError, state2).
Proof.
  split.
  - refine (proj1 (wrong_shape_rejected_without_effect
                     Positions state2 (PySeq [PyInt 1; PyInt 2; PyInt 3])
                     eq_refl)
                  (NdFloat64 [1; 3] [1; 2; 3]%float) eq_refl _).
    discriminate.
  - refine (proj1 (proj2 (wrong_shape_rejected_without_effect
                     Energies state2
                     (PySeq [PySeq [PyInt 1; PyInt 2]; PySeq [PyInt 3; PyInt 4]])
                     eq_refl))
                  (NdFloat64 [2; 2] [1; 2; 3; 4]%float) [2; 2]
                  eq_refl eq_refl _).
    left. simpl. lia.
Defined.

(** ** Conversion of scalars and flat sequences *)

Lemma py_scalar_isscalar (x : pyobj) : np_isscalar x = true <-> py_scalar x.
Proof.
  split.
  - destruct x; try discriminate; constructor.
  - intros []; reflexivity.
Qed.

Lemma py_scalar_shape (x : pyobj) : py_scalar x -> discover_shape x = Ok [].
Proof. intros []; reflexivity. Qed.

Lemma py_scalar_data (x : pyobj) (d : list float) :
  py_scalar x -> flat_data x = Ok d -> exists f, d = [f].
Proof.
  intros [b | z | f] H; simpl in H.
  - injection H as <-; eexists; reflexivity.
  - destruct (float_of_int z) as [y|]; [|discriminate].
    injection H as <-; eexists; reflexivity.
  - injection H as <-; eexists; reflexivity.
Qed.

Lemma np_array_of_shape (v : pyobj) (k : nat) (sh : shape_t) (d : list float) :
  discover_shape v = Ok sh -> (length sh <= NPY_MAXDIMS)%nat ->
  flat_data v = Ok d ->
  np_array v k = Ok (NdFloat64 (promote k sh) d).
Proof.
  intros Hs Hlen Hd. unfold np_array. rewrite Hs. simpl.
  apply Nat.ltb_ge in Hlen. rewrite Hlen, Hd. reflexivity.
Qed.

Lemma triple_shape (x y z : pyobj) :
  py_scalar x -> py_scalar y -> py_scalar z ->
  discover_shape (PySeq [x; y; z]) = Ok [3].
Proof.
  intros Hx Hy Hz. rewrite discover_shape_seq. simpl.
  rewrite (py_scalar_shape x Hx), (py_scalar_shape y Hy),
    (py_scalar_shape z Hz). reflexivity.
Qed.

Lemma triple_data (x y z : pyobj) (d : list float) :
  py_scalar x -> py_scalar y -> py_scalar z ->
  flat_data (PySeq [x; y; z]) = Ok d -> length d = 3%nat.
Proof.
  intros Hx Hy Hz H. rewrite flat_data_seq in H. simpl in H.
  destruct (flat_data x) as [dx|] eqn:Ex; [|discriminate].
  destruct (flat_data y) as [dy|] eqn:Ey; [|discriminate].
  destruct (flat_data z) as [dz|] eqn:Ez; [|discriminate].
  destruct (py_scalar_data x dx Hx Ex) as [fx ->].
  destruct (py_scalar_data y dy Hy Ey) as [fy ->].
  destruct (py_scalar_data z dz Hz Ez) as [fz ->].
  simpl in H. injection H as <-. reflexivity.
Qed.

(** C8.  With N = 1 a flat sequence of three numbers assigned to
    [positions], [velocities] or [forces] is stored as the (1,3) array of
    its three entries, and a single number assigned to [energies] is stored
    as a (1,) array; with any other N the same assignments raise
    [TypeError] and change nothing. *)
Theorem single_particle_promotion (s : State) :
  (forall a x y z d,
      a = Positions \/ a = Velocities \/ a = Forces ->
      py_scalar x -> py_scalar y -> py_scalar z ->
      flat_data (PySeq [x; y; z]) = Ok d ->
      length d = 3%nat
      /\ (_N s = 1 ->
          attr_set a (PySeq [x; y; z]) s
            = (Ok tt, attr_put a (NdFloat64 [1; 3] d) s)
          /\ attr_get a (attr_put a (NdFloat64 [1; 3] d) s)
             = Some (NdFloat64 [1; 3] d))
      /\ (_N s <> 1 ->
          attr_set a (PySeq [x; y; z]) s = (Raise TypeError, s)))
  /\ (forall x d,
        py_scalar x -> flat_data x = Ok d ->
        length d = 1%nat
        /\ (_N s = 1 ->
            StateM.energies_set x s
              = (Ok tt, with_energies (Some (NdFloat64 [1] d)) s))
        /\ (_N s <> 1 ->
            StateM.energies_set x s = (Raise TypeError, s))).
Proof.
  split.
  - intros a x y z d Ha Hx Hy Hz Hd.
    assert (Hconv : np_array (PySeq [x; y; z]) (attr_ndmin a)
                    = Ok (NdFloat64 [1; 3] d)).
    { rewrite (np_array_of_shape _ _ [3] d (triple_shape x y z Hx Hy Hz));
        [| unfold NPY_MAXDIMS; simpl; lia | exact Hd].
      destruct Ha as [-> | [-> | ->]]; reflexivity. }
    assert (Hres : attr_resets a (PySeq [x; y; z]) = false)
      by (destruct a; reflexivity).
    assert (Hsh : attr_shape a (_N s) = [_N s; 3])
      by (destruct Ha as [-> | [-> | ->]]; reflexivity).
    split; [exact (triple_data x y z d Hx Hy Hz Hd)|]. split.
    + intros HN. split.
      * rewrite attr_set_eq, Hres, Hconv, Hsh, HN. reflexivity.
      * destruct Ha as [-> | [-> | ->]]; reflexivity.
    + intros HN. rewrite attr_set_eq, Hres, Hconv, Hsh.
      cbn [nd_shape]. rewrite shape_eqb_neq; [reflexivity|].
      intros E; injection E as E; auto.
  - intros x d Hx Hd.
    assert (Hconv : np_array x 1 = Ok (NdFloat64 [1] d)).
    { rewrite (np_array_of_shape _ _ [] d (py_scalar_shape x Hx));
        [reflexivity | unfold NPY_MAXDIMS; simpl; lia | exact Hd]. }
    assert (Hres : attr_resets Energies x = false)
      by (destruct Hx; reflexivity).
    destruct (py_scalar_data x d Hx Hd) as [f ->].
    split; [reflexivity|].
    change StateM.energies_set with (attr_set Energies).
    rewrite attr_set_eq, Hres. cbn [attr_ndmin]. rewrite Hconv.
    cbn [nd_shape attr_shape attr_put].
    split; intros HN.
    + rewrite HN. reflexivity.
    + rewrite shape_eqb_neq; [reflexivity|].
      intros E; injection E as E; auto.
Qed.

(** C8 at a one-particle and at a two-particle state. *)
Lemma single_particle_promotion_witness :
  (attr_set Positions (PySeq [PyInt 0; PyFloat 9.5; PyInt 5]) state1
     = (Ok tt, attr_put Positions (NdFloat64 [1; 3] [0; 9.5; 5]%float) state1)
   /\ attr_set Forces (PySeq [PyInt 0; PyFloat 9.5; PyInt 5]) state2
      = (Raise TypeError, state2))
  /\ (StateM.energies_set (PyFloat 5) state1
        = (Ok tt, with_energies (Some (NdFloat64 [1] [5]%float)) state1)
      /\ StateM.energies_set (PyFloat 5) state2 = (Raise TypeError, state2)).
Proof.
  split; split.
  - refine (proj1 (proj1 (proj2 (proj1 (single_particle_promotion state1)
      Positions (PyInt 0) (PyFloat 9.5) (PyInt 5) [0; 9.5; 5]%float
      (or_introl eq_refl) (scalar_int 0) (scalar_float 9.5) (scalar_int 5)
      eq_refl)) eq_refl)).
  - refine (proj2 (proj2 (proj1 (single_particle_promotion state2)
      Forces (PyInt 0) (PyFloat 9.5) (PyInt 5) [0; 9.5; 5]%float
      (or_intror (or_intror eq_refl))
      (scalar_int 0) (scalar_float 9.5) (scalar_int 5) eq_refl)) _).
    simpl. lia.
  - refine (proj1 (proj2 (proj2 (single_particle_promotion state1)
      (PyFloat 5) [5]%float (scalar_float 5) eq_refl)) eq_refl).
  - refine (proj2 (proj2 (proj2 (single_particle_promotion state2)
      (PyFloat 5) [5]%float (scalar_float 5) eq_refl)) _).
    simpl. lia.
Defined.

(** ** The edge lengths of a box *)

Lemma L_set_eq (value : pyobj) (self : Box) :
  BoxM.L_set value self =
  match np_array value 1 with
  | Raise e => (Raise e, self)
  | Ok L0 =>
      let L := if shape_eqb (nd_shape L0) [1] then np_repeat L0 3 else L0 in
      if shape_eqb (nd_shape L) [3]
      then if np_any_le0 L then (Raise ValueError, self)
           else (Ok tt, mkBox L)
      else (Raise TypeError, self)
  end.
Proof.
  unfold BoxM.L_set, bind, lift, raise, modify.
  destruct (np_array value 1) as [L0|e]; [|reflexivity].
  cbv zeta.
  destruct (shape_eqb (nd_shape (if shape_eqb (nd_shape L0) [1]
                                 then np_repeat L0 3 else L0)) [3]);
    [|reflexivity].
  destruct (np_any_le0 _); reflexivity.
Qed.

Lemma L_set_raise_unchanged (value : pyobj) (self self' : Box) (e : exn) :
  BoxM.L_set value self = (Raise e, self') -> self' = self.
Proof.
  rewrite L_set_eq. destruct (np_array value 1) as [L0|e0]; [|congruence].
  cbv zeta. destruct (shape_eqb _ [3]); [|congruence].
  destruct (np_any_le0 _); [congruence | discriminate].
Qed.

Lemma np_any_le0_true (a : ndarray) :
  np_any_le0 a = true
  <-> exists x, In x (nd_float_data a) /\ (x <=? 0)%float = true.
Proof. unfold np_any_le0. apply existsb_exists. Qed.

(** C9.  [Box.L] assignment.  A value that converts to a one-element
    array, so a number or a sequence of one number such as [[10.0]], with
    an entry not [<= 0] is stored as the cube (L, L, L).
    Once the value is converted, a shape other than (1,) and (3,) raises
    [TypeError], and only these two shapes are ever stored; with one of
    them, any entry [<= 0] raises [ValueError]; a (3,) array with no such
    entry is stored as it is.  Whatever the setter raises, the stored
    lengths are unchanged. *)
Theorem box_lengths_validated (self : Box) (value : pyobj) :
  (forall f,
      np_array value 1 = Ok (NdFloat64 [1] [f]) -> (f <=? 0)%float = false ->
      BoxM.L_set value self = (Ok tt, mkBox (NdFloat64 [3] [f; f; f])))
  /\ (forall x f,
        py_scalar x -> flat_data x = Ok [f] -> (f <=? 0)%float = false ->
        BoxM.L_set x self = (Ok tt, mkBox (NdFloat64 [3] [f; f; f]))
        /\ BoxM.L_set (PySeq [x]) self
           = (Ok tt, mkBox (NdFloat64 [3] [f; f; f])))
  /\ (forall a,
        np_array value 1 = Ok a ->
        nd_shape a <> [1] -> nd_shape a <> [3] ->
        BoxM.L_set value self = (Raise TypeError, self))
  /\ (forall self',
        BoxM.L_set value self = (Ok tt, self') ->
        nd_shape (_L self') = [3]
        /\ exists a, np_array value 1 = Ok a
                     /\ (nd_shape a = [1] \/ nd_shape a = [3]))
  /\ (forall a,
        pyobj_wf value -> np_array value 1 = Ok a ->
        nd_shape a = [1] \/ nd_shape a = [3] ->
        (exists x, In x (nd_float_data a) /\ (x <=? 0)%float = true) ->
        BoxM.L_set value self = (Raise ValueError, self))
  /\ (forall a,
        np_array value 1 = Ok a -> nd_shape a = [3] ->
        np_any_le0 a = false ->
        BoxM.L_set value self = (Ok tt, mkBox a))
  /\ (forall e self', BoxM.L_set value self = (Raise e, self') -> self' = self).
Proof.
  assert (cube : forall v f,
             np_array v 1 = Ok (NdFloat64 [1] [f]) -> (f <=? 0)%float = false ->
             BoxM.L_set v self = (Ok tt, mkBox (NdFloat64 [3] [f; f; f]))).
  { intros v f Hv Hpos. rewrite L_set_eq, Hv. cbv zeta.
    cbn [nd_shape shape_eqb Z.eqb Pos.eqb andb].
    change (np_repeat (NdFloat64 [1] [f]) 3) with (NdFloat64 [3] [f; f; f]).
    cbn [nd_shape shape_eqb Z.eqb Pos.eqb andb].
    unfold np_any_le0. cbn [nd_float_data existsb].
    rewrite Hpos. reflexivity. }
  split; [exact (cube value)|].
  split; [|split; [|split; [|split; [|split]]]].
  - intros x f Hx Hd Hpos.
    assert (Hone : np_array x 1 = Ok (NdFloat64 [1] [f])).
    { rewrite (np_array_of_shape _ _ [] [f] (py_scalar_shape x Hx));
        [reflexivity | unfold NPY_MAXDIMS; simpl; lia | exact Hd]. }
    assert (Hseq : np_array (PySeq [x]) 1 = Ok (NdFloat64 [1] [f])).
    { rewrite (np_array_of_shape _ _ [1] [f]).
      - reflexivity.
      - rewrite discover_shape_seq. simpl.
        rewrite (py_scalar_shape x Hx). reflexivity.
      - unfold NPY_MAXDIMS; simpl; lia.
      - rewrite flat_data_seq. simpl. rewrite Hd. reflexivity. }
    split; apply cube; assumption.
  - intros a Ha H1 H3. rewrite L_set_eq, Ha. cbv zeta.
    rewrite (shape_eqb_neq _ _ H1), (shape_eqb_neq _ _ H3). reflexivity.
  - intros self' H. rewrite L_set_eq in H.
    destruct (np_array value 1) as [a|e]; [|discriminate].
    cbv zeta in H.
    destruct (shape_eqb (nd_shape (if shape_eqb (nd_shape a) [1]
                                   then np_repeat a 3 else a)) [3]) eqn:E3;
      [|discriminate].
    destruct (np_any_le0 _); [discriminate|].
    injection H as <-. apply shape_eqb_eq in E3. split; [exact E3|].
    exists a. split; [reflexivity|].
    destruct (shape_eqb (nd_shape a) [1]) eqn:E1.
    + left. apply shape_eqb_eq; assumption.
    + right. assumption.
  - intros a Hwf Ha Hsh (x & Hin & Hle).
    destruct (np_array_wf _ _ _ Hwf Ha) as [_ Hsize].
    apply np_array_ok in Ha as Hinv. destruct Hinv as (sh & d & _ & _ & _ & ->).
    rewrite L_set_eq, Ha. cbv zeta.
    cbn [nd_shape nd_size nd_float_data] in Hsh, Hsize, Hin |- *.
    destruct Hsh as [Hsh | Hsh]; rewrite Hsh in Hsize |- *.
    + destruct d as [|f [|? ?]];
        try (cbn [length shape_size fold_right] in Hsize; lia).
      destruct Hin as [<- | []].
      cbn [shape_eqb Z.eqb Pos.eqb andb].
      change (np_repeat (NdFloat64 [1] [f]) 3) with (NdFloat64 [3] [f; f; f]).
      cbn [shape_eqb Z.eqb Pos.eqb andb nd_shape].
      unfold np_any_le0. cbn [nd_float_data existsb]. rewrite Hle.
      reflexivity.
    + cbn [shape_eqb Z.eqb Pos.eqb andb nd_shape].
      replace (np_any_le0 (NdFloat64 [3] d)) with true; [reflexivity|].
      symmetry. apply np_any_le0_true. exists x. auto.
  - intros a Ha Hsh Hpos. rewrite L_set_eq, Ha. cbv zeta.
    rewrite Hsh. cbn [shape_eqb Z.eqb Pos.eqb andb]. rewrite Hsh.
    cbn [shape_eqb Z.eqb Pos.eqb andb]. rewrite Hpos. reflexivity.
  - intros e self'. apply L_set_raise_unchanged.
Qed.

(** C9 at the values of [test_box.py], and at a zero length. *)
Lemma box_lengths_validated_witness :
  (BoxM.L_set (PyFloat 10) ortho = (Ok tt, cube10)
   /\ BoxM.L_set (PySeq [PyFloat 10]) ortho = (Ok tt, cube10))
  /\ BoxM.L_set (PySeq [PyFloat 10; PyFloat 15]) ortho = (Raise TypeError, ortho)
  /\ BoxM.L_set (PySeq [PyFloat 1; PyFloat (-2); PyFloat 3]) ortho
     = (Raise ValueError, ortho)
  /\ BoxM.L_set (PyInt 0) ortho = (Raise ValueError, ortho).
Proof.
  split; [|split; [|split]].
  - exact (proj1 (proj2 (box_lengths_validated ortho PyNone))
                 (PyFloat 10) 10%float (scalar_float 10) eq_refl eq_refl).
  - refine (proj1 (proj2 (proj2 (box_lengths_validated ortho
                            (PySeq [PyFloat 10; PyFloat 15]))))
                  (NdFloat64 [2] [10; 15]%float) eq_refl _ _);
      discriminate.
  - refine (proj1 (proj2 (proj2 (proj2 (proj2 (box_lengths_validated ortho
              (PySeq [PyFloat 1; PyFloat (-2); PyFloat 3]))))))
              (NdFloat64 [3] [1; -2; 3]%float) _ eq_refl
              (or_intror eq_refl) _).
    + simpl. auto.
    + exists (-2)%float. split; [simpl; auto | reflexivity].
  - refine (proj1 (proj2 (proj2 (proj2 (proj2 (box_lengths_validated ortho
              (PyInt 0))))))
              (NdFloat64 [1] [0]%float) I eq_refl (or_introl eq_refl) _).
    exists 0%float. split; [simpl; auto | reflexivity].
Defined.

(** ** What a conversion can raise *)

Lemma mapM_result_raise {A B : Type} (f : A -> result B) (l : list A)
      (e0 e : exn) :
  Forall (fun x => forall e', f x = Raise e' -> e' = e0) l ->
  mapM_result f l = Raise e -> e = e0.
Proof.
  induction 1 as [|x t Hx _ IH]; simpl; [discriminate|].
  destruct (f x) as [y|e'] eqn:Ex; simpl.
  - destruct (mapM_result f t) as [ys|e'']; simpl; [discriminate|].
    intros H; injection H as <-. apply IH; reflexivity.
  - intros H; injection H as <-. apply Hx; reflexivity.
Qed.

Lemma discover_shape_raise (v : pyobj) (e : exn) :
  discover_shape v = Raise e -> e = ValueError.
Proof.
  revert e.
  induction v as [| b | z | f | items IH | a] using pyobj_nested_ind;
    intros e H; try discriminate.
  rewrite discover_shape_seq in H.
  destruct (mapM_result discover_shape items) as [shs|e'] eqn:E; simpl in H.
  - destruct shs as [|sh rest]; [discriminate|].
    destruct (forallb (shape_eqb sh) rest); [discriminate|].
    injection H as <-; reflexivity.
  - injection H as <-. exact (mapM_result_raise _ _ _ _ IH E).
Qed.

Lemma flat_data_raise (v : pyobj) (e : exn) :
  flat_data v = Raise e -> e = OverflowError.
Proof.
  revert e.
  induction v as [| b | z | f | items IH | a] using pyobj_nested_ind;
    intros e H; try discriminate.
  - simpl in H. unfold float_of_int in H.
    destruct (Z2SF z); simpl in H; try discriminate.
    injection H as <-; reflexivity.
  - rewrite flat_data_seq in H.
    destruct (mapM_result flat_data items) as [ds|e'] eqn:E; simpl in H;
      [discriminate|].
    injection H as <-. exact (mapM_result_raise _ _ _ _ IH E).
Qed.

(** A conversion to float64 never raises [TypeError]. *)
Lemma np_array_raise (v : pyobj) (k : nat) (e : exn) :
  np_array v k = Raise e -> e = ValueError \/ e = OverflowError.
Proof.
  unfold np_array.
  destruct (discover_shape v) as [sh|e'] eqn:Es; simpl.
  - destruct (NPY_MAXDIMS <? length sh)%nat.
    + intros H; injection H as <-; auto.
    + destruct (flat_data v) as [d|e'] eqn:Ed; simpl; [discriminate|].
      intros H; injection H as <-. right. exact (flat_data_raise _ _ Ed).
  - intros H; injection H as <-. left. exact (discover_shape_raise _ _ Es).
Qed.

Lemma zeros_eq (x : pyobj) :
  LJ._zeros x =
  match np_array x 1 with
  | Raise e => Raise e
  | Ok a =>
      if (nd_rank a =? 1)%nat then Ok (a, np_zeros_like a, np_isscalar x)
      else Raise TypeError
  end.
Proof.
  unfold LJ._zeros, nd_rank. destruct (np_array x 1) as [a|e]; simpl;
    [|reflexivity].
  destruct (length (nd_shape a) =? 1)%nat; reflexivity.
Qed.

(** C10.  [_zeros] raises [TypeError] exactly when its input converts to
    an array of rank other than 1, which is then an input of rank 2 or
    more; an input that does not convert raises what the conversion raised,
    never [TypeError].  Otherwise the result is the converted 1-d float64
    array, a float64 array of zeros of the same shape, and the flag
    [numpy.isscalar] gave, true exactly for a Python number; a number comes
    back as a one-element array. *)
Theorem zeros_rank_checked (x : pyobj) :
  (LJ._zeros x = Raise TypeError
   <-> exists a, np_array x 1 = Ok a /\ nd_rank a <> 1%nat)
  /\ (forall a,
        np_array x 1 = Ok a -> nd_rank a <> 1%nat ->
        (2 <= nd_rank a)%nat
        /\ exists sh, discover_shape x = Ok sh /\ nd_shape a = sh)
  /\ (forall a,
        np_array x 1 = Ok a -> nd_rank a = 1%nat ->
        LJ._zeros x
          = Ok (a,
                NdFloat64 (nd_shape a)
                          (repeat 0%float (Z.to_nat (shape_size (nd_shape a)))),
                np_isscalar x)
        /\ nd_dtype a = float64)
  /\ (np_isscalar x = true <-> py_scalar x)
  /\ (forall f,
        py_scalar x -> flat_data x = Ok [f] ->
        LJ._zeros x = Ok (NdFloat64 [1] [f], NdFloat64 [1] [0%float], true)).
Proof.
  split; [|split; [|split; [|split]]].
  - rewrite zeros_eq. split.
    + destruct (np_array x 1) as [a|e] eqn:Ha.
      * destruct (nd_rank a =? 1)%nat eqn:Hr; [discriminate|].
        intros _. exists a. split; [reflexivity|].
        apply Nat.eqb_neq; assumption.
      * intros H; injection H as ->.
        destruct (np_array_raise _ _ _ Ha); discriminate.
    + intros (a & -> & Hr). apply Nat.eqb_neq in Hr. rewrite Hr. reflexivity.
  - intros a Ha Hr.
    apply np_array_ok in Ha as (sh & d & Hs & _ & _ & ->).
    unfold nd_rank in *. simpl in *. rewrite promote_length in *.
    split; [lia|]. exists sh. split; [assumption|].
    apply promote_full. lia.
  - intros a Ha Hr. rewrite zeros_eq, Ha.
    apply Nat.eqb_eq in Hr. rewrite Hr.
    apply np_array_ok in Ha as (sh & d & _ & _ & _ & ->). split; reflexivity.
  - apply py_scalar_isscalar.
  - intros f Hx Hd. rewrite zeros_eq.
    rewrite (np_array_of_shape _ _ [] [f] (py_scalar_shape x Hx));
      [| unfold NPY_MAXDIMS; simpl; lia | exact Hd].
    apply py_scalar_isscalar in Hx. rewrite Hx. reflexivity.
Qed.

(** C10 at a nested sequence, a flat sequence and a number. *)
Lemma zeros_rank_checked_witness :
  LJ._zeros (PySeq [PySeq [PyFloat 1; PyFloat 2]]) = Raise TypeError
  /\ LJ._zeros (PySeq [PyFloat 1; PyFloat 2])
     = Ok (NdFloat64 [2] [1; 2]%float, NdFloat64 [2] [0; 0]%float, false)
  /\ LJ._zeros (PyFloat 3)
     = Ok (NdFloat64 [1] [3]%float, NdFloat64 [1] [0]%float, true).
Proof.
  split; [|split].
  - apply (proj2 (proj1 (zeros_rank_checked
                           (PySeq [PySeq [PyFloat 1; PyFloat 2]])))).
    exists (NdFloat64 [1; 2] [1; 2]%float). split; [reflexivity|].
    unfold nd_rank; simpl; lia.
  - exact (proj1 (proj1 (proj2 (proj2 (zeros_rank_checked
             (PySeq [PyFloat 1; PyFloat 2]))))
             (NdFloat64 [2] [1; 2]%float) eq_refl eq_refl)).
  - exact (proj2 (proj2 (proj2 (proj2 (zeros_rank_checked (PyFloat 3)))))
             3%float (scalar_float 3) eq_refl).
Defined.

(** * Further properties of the code *)

(** ** The mass *)

Lemma float_leb0_magnitude (f : float) :
  (f <=? 0)%float
  = match float_magnitude f with NonPositive => true | _ => false end.
Proof.
  rewrite leb_spec. unfold float_magnitude.
  replace (Prim2SF 0) with (S754_zero false) by reflexivity.
  destruct (Prim2SF f) as [s | s | | s m e]; try destruct s; reflexivity.
Qed.

Lemma num_leb0_magnitude (value : pynumber) :
  num_leb0 value
  = match num_magnitude value with NonPositive => true | _ => false end.
Proof.
  destruct value as [z | f]; simpl.
  - destruct z; reflexivity.
  - apply float_leb0_magnitude.
Qed.

Lemma attr_put_frame (a : attr) (x : ndarray) (s : State) :
  _N (attr_put a x s) = _N s /\ _box (attr_put a x s) = _box s
  /\ _mass (attr_put a x s) = _mass s
  /\ _counter (attr_put a x s) = _counter s.
Proof. destruct a; repeat split. Qed.

Lemma attr_unset_frame (a : attr) (s : State) :
  _N (attr_unset a s) = _N s /\ _box (attr_unset a s) = _box s
  /\ _mass (attr_unset a s) = _mass s
  /\ _counter (attr_unset a s) = _counter s.
Proof. destruct a; repeat split. Qed.

(** What an array setter can do to a state: nothing, unset its attribute,
    or store a converted array of the right shape in it. *)
Lemma attr_set_cases (a : attr) (v : pyobj) (s : State) :
  (exists e, attr_set a v s = (Raise e, s))
  \/ (attr_resets a v = true /\ attr_set a v s = (Ok tt, attr_unset a s))
  \/ (exists x,
        attr_resets a v = false
        /\ np_array v (attr_ndmin a) = Ok x
        /\ nd_shape x = attr_shape a (_N s)
        /\ attr_set a v s = (Ok tt, attr_put a x s)).
Proof.
  rewrite attr_set_eq. destruct (attr_resets a v); [right; left; auto|].
  destruct (np_array v (attr_ndmin a)) as [x|e]; [|left; eauto].
  destruct (shape_eqb _ _) eqn:E; [|left; eauto].
  right; right. exists x. apply shape_eqb_eq in E. auto.
Qed.

Lemma reachable_mass (s : State) : reachable s -> num_leb0 (_mass s) = false.
Proof.
  induction 1 as [N box mass counter s Hinit | s o _ IH].
  - apply init_ok in Hinit as (_ & Hm & _ & dp & di & ->). exact Hm.
  - destruct o as [b | m | c | a v | ig]; simpl.
    + exact IH.
    + unfold StateM.mass_set. destruct (num_leb0 m) eqn:Hm; simpl; auto.
    + unfold StateM.counter_set. destruct (isinstance_int c); simpl; auto.
    + destruct (attr_set_cases a v s) as [[e ->] | [[_ ->] | (x & _ & _ & _ & ->)]];
        simpl; auto.
      * destruct (attr_unset_frame a s) as (_ & _ & -> & _). exact IH.
      * destruct (attr_put_frame a x s) as (_ & _ & -> & _). exact IH.
    + exact IH.
Qed.

(** X1.  The mass setter refuses exactly the numbers that are zero or
    negative (either float zero, the integer zero, minus infinity), with
    [ValueError] and the state unchanged; every positive number is stored,
    and so is NaN, which is not [<= 0.0].  Hence the mass of a state a
    driver can hold is positive or NaN, never zero or negative. *)
Theorem mass_positive_or_refused :
  (forall value s,
      StateM.mass_set value s
      = match num_magnitude value with
        | NonPositive => (Raise ValueError, s)
        | Positive | Unordered => (Ok tt, with_mass value s)
        end)
  /\ (forall s,
        reachable s ->
        num_magnitude (_mass s) = Positive
        \/ num_magnitude (_mass s) = Unordered).
Proof.
  split.
  - intros value s. unfold StateM.mass_set. rewrite num_leb0_magnitude.
    destruct (num_magnitude value); reflexivity.
  - intros s R. apply reachable_mass in R.
    rewrite num_leb0_magnitude in R.
    destruct (num_magnitude (_mass s)); auto; discriminate.
Qed.

(** X1 at [State(2, Box(10.0))], whose mass is the default 1.0. *)
Lemma mass_positive_or_refused_witness :
  num_magnitude (_mass state2) = Positive
  \/ num_magnitude (_mass state2) = Unordered.
Proof. exact (proj2 mass_positive_or_refused state2 state2_reachable). Defined.

(** ** Construction *)

Lemma np_array_zeros_float64 (N : Z) :
  np_array (PyArray (np_zeros [N; 3] float64)) 2 = Ok (np_zeros [N; 3] float64).
Proof. reflexivity. Qed.

Lemma np_array_zeros_int32 (N : Z) :
  np_array (PyArray (np_zeros [N; 3] int32)) 2 = Ok (np_zeros [N; 3] float64).
Proof.
  unfold np_array, np_zeros. cbn [discover_shape nd_shape rbind].
  cbn [flat_data nd_float_data rbind]. rewrite map_repeat. reflexivity.
Qed.

(** X2.  [State.__init__] in closed form.  The checks come in the order
    N, mass, counter: a negative N raises [ValueError] whatever the other
    arguments, then a mass [<= 0] raises [ValueError], then a non-integer
    counter raises [TypeError].  Otherwise the state holds the arguments,
    positions and images that are both float64 zeros of shape (N,3), and no
    velocities, energies or forces; N = 0 gives a state of no particles. *)
Theorem state_init_closed_form
        (N : Z) (box : Box) (mass : pynumber) (counter : pyobj) :
  StateM.init N box mass counter
  = if N <? 0 then Raise ValueError
    else if num_leb0 mass then Raise ValueError
    else if isinstance_int counter
         then Ok (mkState N box mass counter
                          (np_zeros [N; 3] float64) (np_zeros [N; 3] float64)
                          None None None)
         else Raise TypeError.
Proof.
  unfold StateM.init. destruct (N <? 0); [reflexivity|].
  unfold construct, bind. cbn [StateM.box_set modify].
  unfold StateM.mass_set. destruct (num_leb0 mass); [reflexivity|].
  cbn [modify]. unfold StateM.counter_set.
  destruct (isinstance_int counter); [|reflexivity].
  cbn [negb modify].
  change StateM.positions_set with (attr_set Positions).
  change StateM.images_set with (attr_set Images).
  rewrite attr_set_eq. cbn [attr_resets attr_ndmin attr_shape].
  rewrite np_array_zeros_float64.
  change (nd_shape (np_zeros [N; 3] float64)) with [N; 3].
  cbn [with_counter with_mass with_box State_blank _N].
  rewrite shape_eqb_refl. cbn [attr_put with_positions].
  rewrite attr_set_eq. cbn [attr_resets attr_ndmin attr_shape].
  rewrite np_array_zeros_int32.
  change (nd_shape (np_zeros [N; 3] float64)) with [N; 3].
  cbn [_N]. rewrite shape_eqb_refl.
  reflexivity.
Qed.

(** ** Assigning [None] *)

(** X3.  [None] unsets velocities, energies and forces in every state,
    whatever they held; assigned to positions or images it raises
    [TypeError] in every state, for every N: [None] converts to a (1,1)
    array of NaN, which is never (N,3).  Positions and images cannot be
    unset. *)
Theorem none_unsets_only_optional (s : State) :
  attr_set Positions PyNone s = (Raise TypeError, s)
  /\ attr_set Images PyNone s = (Raise TypeError, s)
  /\ attr_set Velocities PyNone s = (Ok tt, with_velocities None s)
  /\ attr_set Energies PyNone s = (Ok tt, with_energies None s)
  /\ attr_set Forces PyNone s = (Ok tt, with_forces None s)
  /\ np_array PyNone 2 = Ok (NdFloat64 [1; 1] [nan]).
Proof.
  assert (H : shape_eqb [1; 1] [_N s; 3] = false).
  { cbn [shape_eqb]. destruct (1 =? _N s); reflexivity. }
  assert (bad : forall a, a = Positions \/ a = Images ->
                          attr_set a PyNone s = (Raise TypeError, s)).
  { intros a [-> | ->]; rewrite attr_set_eq;
      cbn [attr_resets attr_ndmin attr_shape];
      change (np_array PyNone 2) with (Ok (NdFloat64 [1; 1] [nan]));
      cbn [nd_shape]; rewrite H; reflexivity. }
  split; [apply bad; auto|]. split; [apply bad; auto|].
  split; [reflexivity|]. split; [reflexivity|]. split; reflexivity.
Qed.

(** ** What an operation leaves alone *)

Lemma attr_get_put_other (a b : attr) (x : ndarray) (s : State) :
  b <> a -> attr_get b (attr_put a x s) = attr_get b s.
Proof. intros H. destruct a, b; try reflexivity; contradiction. Qed.

Lemma attr_get_unset_other (a b : attr) (s : State) :
  b <> a -> attr_get b (attr_unset a s) = attr_get b s.
Proof. intros H. destruct a, b; try reflexivity; contradiction. Qed.

(** X4.  A successful assignment to one of the five array attributes
    changes that attribute only: N, the box, the mass, the counter and the
    four other arrays are as before. *)
Theorem assignment_changes_one_attribute
        (a : attr) (v : pyobj) (s s' : State) :
  attr_set a v s = (Ok tt, s') ->
  _N s' = _N s /\ _box s' = _box s /\ _mass s' = _mass s
  /\ _counter s' = _counter s
  /\ forall b, b <> a -> attr_get b s' = attr_get b s.
Proof.
  intros H.
  destruct (attr_set_cases a v s)
    as [[e He] | [[_ He] | (x & _ & _ & _ & He)]];
    rewrite He in H; [discriminate | |]; injection H as <-.
  - destruct (attr_unset_frame a s) as (-> & -> & -> & ->).
    repeat split. intros b Hb. apply attr_get_unset_other; assumption.
  - destruct (attr_put_frame a x s) as (-> & -> & -> & ->).
    repeat split. intros b Hb. apply attr_get_put_other; assumption.
Qed.

(** X4 at an assignment of ones to the positions of a two-particle state:
    the images are as before. *)
Lemma assignment_changes_one_attribute_witness :
  attr_get Images
    (with_positions (NdFloat64 [2; 3] (repeat 1%float 6)) state2)
  = attr_get Images state2.
Proof.
  refine (proj2 (proj2 (proj2 (proj2
    (assignment_changes_one_attribute Positions
       (PyArray (NdFloat64 [2; 3] (repeat 1%float 6))) state2
       (with_positions (NdFloat64 [2; 3] (repeat 1%float 6)) state2)
       eq_refl)))) Images _).
  discriminate.
Defined.

(** X5.  Every operation on a state either returns or raises with the
    state exactly as it was: the mass, counter and array setters validate
    before they store, and the integrator raises before it touches the
    state. *)
Theorem operation_raises_without_effect (o : op) (s : State) :
  (exists s', run_op o s = (Ok tt, s'))
  \/ (exists e, run_op o s = (Raise e, s)).
Proof.
  destruct o as [b | m | c | a v | ig]; simpl.
  - left. eexists; reflexivity.
  - unfold StateM.mass_set. destruct (num_leb0 m);
      [right | left]; eexists; reflexivity.
  - unfold StateM.counter_set. destruct (isinstance_int c);
      [left | right]; eexists; reflexivity.
  - destruct (attr_set_cases a v s)
      as [[e He] | [[_ He] | (x & _ & _ & _ & He)]]; rewrite He; eauto.
  - right. eexists; reflexivity.
Qed.

Lemma run_op_N (o : op) (s : State) : _N (snd (run_op o s)) = _N s.
Proof.
  destruct o as [b | m | c | a v | ig]; simpl; try reflexivity.
  - unfold StateM.mass_set. destruct (num_leb0 m); reflexivity.
  - unfold StateM.counter_set. destruct (isinstance_int c); reflexivity.
  - destruct (attr_set_cases a v s)
      as [[e He] | [[_ He] | (x & _ & _ & _ & He)]]; rewrite He; simpl.
    + reflexivity.
    + apply attr_unset_frame.
    + apply attr_put_frame.
Qed.

(** X6.  The particle count is fixed at construction: no sequence of
    assignments and integrator calls, failed or not, changes N. *)
Theorem particle_count_fixed (os : list op) (s : State) :
  _N (run_ops os s) = _N s.
Proof.
  revert s. induction os as [|o os IH]; intros s; [reflexivity|].
  unfold run_ops in *. simpl. rewrite IH. apply run_op_N.
Qed.

(** ** The stored arrays *)

Lemma attr_get_put_same (a : attr) (x : ndarray) (s : State) :
  attr_get a (attr_put a x s) = Some x.
Proof. destruct a; reflexivity. Qed.

Lemma attr_get_unset_same (a : attr) (s : State) :
  attr_resets a PyNone = true -> attr_get a (attr_unset a s) = None.
Proof. destruct a; simpl; try discriminate; reflexivity. Qed.

Lemma attr_eq_dec (a b : attr) : {a = b} + {a <> b}.
Proof. decide equality. Defined.

Lemma attr_resets_none (a : attr) (v : pyobj) :
  attr_resets a v = true -> attr_resets a PyNone = true.
Proof. destruct a, v; simpl; auto. Qed.

(** Every array a reachable state stores is float64 and of the shape of its
    attribute. *)
Lemma reachable_attr_inv (s : State) :
  reachable s ->
  forall a x,
    attr_get a s = Some x ->
    nd_dtype x = float64 /\ nd_shape x = attr_shape a (_N s).
Proof.
  induction 1 as [N box mass counter s Hinit | s o _ IH]; intros a x Hget.
  - apply init_ok in Hinit as (_ & _ & _ & dp & di & ->).
    destruct a; simpl in Hget; try discriminate;
      injection Hget as <-; split; reflexivity.
  - rewrite run_op_N.
    destruct o as [b | m | c | a' v | ig]; simpl in Hget.
    + apply IH. destruct a; exact Hget.
    + unfold StateM.mass_set in Hget. destruct (num_leb0 m); simpl in Hget;
        apply IH; destruct a; exact Hget.
    + unfold StateM.counter_set in Hget.
      destruct (isinstance_int c); simpl in Hget;
        apply IH; destruct a; exact Hget.
    + destruct (attr_set_cases a' v s)
        as [[e He] | [[Hr He] | (y & _ & Hy & Hsh & He)]];
        rewrite He in Hget; simpl in Hget.
      * apply IH; exact Hget.
      * destruct (attr_eq_dec a a') as [-> | Hne].
        -- rewrite attr_get_unset_same in Hget
             by (eapply attr_resets_none; eassumption).
           discriminate.
        -- rewrite attr_get_unset_other in Hget by assumption.
           apply IH; exact Hget.
      * destruct (attr_eq_dec a a') as [-> | Hne].
        -- rewrite attr_get_put_same in Hget. injection Hget as <-.
           split; [exact (np_array_dtype _ _ _ Hy) | exact Hsh].
        -- rewrite attr_get_put_other in Hget by assumption.
           apply IH; exact Hget.
    + apply IH; exact Hget.
Qed.

(** X7.  In every state a driver can hold, each of the five arrays that is
    set is a float64 array of exactly the shape of its attribute: (N,3) for
    positions, images, velocities and forces, (N,) for energies.  The
    optional ones are either unset or of that shape. *)
Theorem stored_arrays_float64_of_shape (s : State) (a : attr) (x : ndarray) :
  reachable s ->
  attr_get a s = Some x ->
  nd_dtype x = float64 /\ nd_shape x = attr_shape a (_N s).
Proof. intros R. apply reachable_attr_inv; assumption. Qed.

(** X7 at the energies of a two-particle state once they are assigned. *)
Lemma stored_arrays_float64_of_shape_witness :
  nd_dtype (NdFloat64 [2] [3; -4]%float) = float64
  /\ nd_shape (NdFloat64 [2] [3; -4]%float) = attr_shape Energies 2.
Proof.
  exact (stored_arrays_float64_of_shape
           (snd (run_op (SetAttr Energies (PySeq [PyInt 3; PyInt (-4)])) state2))
           Energies (NdFloat64 [2] [3; -4]%float)
           (reach_step state2 _ state2_reachable) eq_refl).
Defined.

Lemma attr_put_stored (a : attr) (x : ndarray) (s : State) :
  attr_get a s = Some x -> attr_put a x s = s.
Proof.
  destruct s, a; simpl; intros H; try injection H as <-; try subst;
    reflexivity.
Qed.

(** X8.  Assigning to an attribute the array it already stores succeeds
    and leaves the state exactly as it was, in every state a driver can
    hold: conversion and shape check are the identity on what the setters
    themselves stored. *)
Theorem reassigning_stored_array_is_identity
        (s : State) (a : attr) (x : ndarray) :
  reachable s ->
  attr_get a s = Some x ->
  attr_set a (PyArray x) s = (Ok tt, s).
Proof.
  intros R Hget.
  destruct (reachable_attr_inv s R a x Hget) as [Hd Hsh].
  destruct x as [sh d | sh d]; [|discriminate]. simpl in Hsh. subst sh.
  rewrite attr_set_eq.
  replace (attr_resets a (PyArray (NdFloat64 (attr_shape a (_N s)) d)))
    with false by (destruct a; reflexivity).
  rewrite (np_array_of_shape _ _ (attr_shape a (_N s)) d);
    [| reflexivity
     | rewrite attr_shape_length; destruct a; unfold NPY_MAXDIMS; simpl; lia
     | reflexivity].
  rewrite promote_full by (rewrite attr_shape_length; lia).
  cbn [nd_shape]. rewrite shape_eqb_refl.
  rewrite (attr_put_stored a _ s Hget). reflexivity.
Qed.

(** X8 at the positions of a fresh two-particle state. *)
Lemma reassigning_stored_array_is_identity_witness :
  attr_set Positions (PyArray (_positions state2)) state2 = (Ok tt, state2).
Proof.
  exact (reassigning_stored_array_is_identity state2 Positions
           (_positions state2) state2_reachable eq_refl).
Defined.

(** X9.  A successful assignment of a value whose arrays are well formed
    stores a well-formed array with one entry per coordinate: 3 N numbers
    for positions, images, velocities and forces, N for energies. *)
Theorem stored_array_holds_all_entries
        (a : attr) (v : pyobj) (s s' : State) :
  pyobj_wf v -> attr_resets a v = false ->
  attr_set a v s = (Ok tt, s') ->
  exists x,
    attr_get a s' = Some x /\ nd_wf x
    /\ Z.of_nat (nd_size x)
       = match a with Energies => _N s | _ => _N s * 3 end.
Proof.
  intros Hwf Hres H.
  destruct (attr_set_cases a v s)
    as [[e He] | [[Hr He] | (x & _ & Hx & Hsh & He)]];
    rewrite He in H; [discriminate | congruence |].
  injection H as <-. exists x.
  split; [apply attr_get_put_same|].
  pose proof (np_array_wf v _ x Hwf Hx) as Hx_wf.
  split; [exact Hx_wf|].
  destruct Hx_wf as [_ Hsz]. rewrite Hsz, Hsh.
  destruct a; unfold shape_size; simpl; lia.
Qed.

(** X9 at the positions of the thermodynamics test, [[[1,1,1],[2,2,2]]]. *)
Lemma stored_array_holds_all_entries_witness :
  exists x,
    attr_get Positions
      (with_positions (NdFloat64 [2; 3] [1; 1; 1; 2; 2; 2]%float) state2)
    = Some x
    /\ nd_wf x /\ Z.of_nat (nd_size x) = _N state2 * 3.
Proof.
  refine (stored_array_holds_all_entries Positions
            (PySeq [PySeq [PyInt 1; PyInt 1; PyInt 1];
                    PySeq [PyInt 2; PyInt 2; PyInt 2]])
            state2 _ _ eq_refl eq_refl).
  simpl. tauto.
Defined.

(** ** The box *)

Lemma np_any_le0_three (sh : shape_t) (x y z : float) :
  np_any_le0 (NdFloat64 sh [x; y; z]) = false
  <-> (x <=? 0)%float = false /\ (y <=? 0)%float = false
      /\ (z <=? 0)%float = false.
Proof.
  unfold np_any_le0. cbn [nd_float_data existsb].
  destruct (x <=? 0)%float, (y <=? 0)%float, (z <=? 0)%float; simpl;
    intuition discriminate.
Qed.

Lemma L_set_ok_box (v : pyobj) (self b : Box) :
  pyobj_wf v -> BoxM.L_set v self = (Ok tt, b) -> box_ok b.
Proof.
  intros Hwf H. rewrite L_set_eq in H.
  destruct (np_array v 1) as [a|e] eqn:Ha; [|discriminate].
  destruct (np_array_wf _ _ _ Hwf Ha) as [_ Hsize].
  apply np_array_ok in Ha as (sh & d & _ & _ & _ & ->).
  cbv zeta in H. cbn [nd_shape nd_size] in H, Hsize.
  destruct (shape_eqb (promote 1 sh) [1]) eqn:E1.
  - apply shape_eqb_eq in E1. rewrite E1 in Hsize.
    destruct d as [|f [|? ?]];
      try (cbn [length shape_size fold_right] in Hsize; lia).
    change (np_repeat (NdFloat64 (promote 1 sh) [f]) 3)
      with (NdFloat64 [3] [f; f; f]) in H.
    cbn [nd_shape shape_eqb Z.eqb Pos.eqb andb] in H.
    destruct (np_any_le0 (NdFloat64 [3] [f; f; f])) eqn:Hle; [discriminate|].
    injection H as <-. exists f, f, f. split; [reflexivity|].
    apply np_any_le0_three in Hle. exact Hle.
  - destruct (shape_eqb (nd_shape (NdFloat64 (promote 1 sh) d)) [3]) eqn:E3;
      [|discriminate].
    cbn [nd_shape] in E3. apply shape_eqb_eq in E3. rewrite E3 in *.
    destruct d as [|x [|y [|z [|? ?]]]];
      try (cbn [length shape_size fold_right] in Hsize; lia).
    destruct (np_any_le0 (NdFloat64 [3] [x; y; z])) eqn:Hle; [discriminate|].
    injection H as <-. exists x, y, z. split; [reflexivity|].
    apply np_any_le0_three in Hle. exact Hle.
Qed.

(** X10.  A box that was constructed, or whose lengths were assigned, from
    a well-formed value holds exactly three float64 edge lengths, none of
    them [<= 0]; and handing such a box's own lengths back to the setter or
    to the constructor gives the same box again. *)
Theorem box_holds_three_positive_lengths :
  (forall v b, pyobj_wf v -> BoxM.init v = Ok b -> box_ok b)
  /\ (forall v self b,
        pyobj_wf v -> BoxM.L_set v self = (Ok tt, b) -> box_ok b)
  /\ (forall b self,
        box_ok b ->
        BoxM.L_set (PyArray (_L b)) self = (Ok tt, b)
        /\ BoxM.init (PyArray (_L b)) = Ok b).
Proof.
  split; [|split].
  - intros v b Hwf H. unfold BoxM.init, construct in H.
    destruct (BoxM.L_set v Box_blank) as [[[]|e] b'] eqn:E; [|discriminate].
    injection H as <-. exact (L_set_ok_box v Box_blank b' Hwf E).
  - intros v self b. apply L_set_ok_box.
  - intros b self (x & y & z & HL & Hx & Hy & Hz).
    assert (Hset : forall self0,
               BoxM.L_set (PyArray (_L b)) self0 = (Ok tt, b)).
    { intros self0. rewrite L_set_eq, HL.
      change (np_array (PyArray (NdFloat64 [3] [x; y; z])) 1)
        with (Ok (NdFloat64 [3] [x; y; z])).
      cbv zeta. cbn [nd_shape shape_eqb Z.eqb Pos.eqb andb].
      replace (np_any_le0 (NdFloat64 [3] [x; y; z])) with false
        by (symmetry; apply np_any_le0_three; auto).
      rewrite <- HL. destruct b; reflexivity. }
    split; [apply Hset|].
    unfold BoxM.init, construct. rewrite Hset. reflexivity.
Qed.

(** X10 at the boxes of the package's tests. *)
Lemma box_holds_three_positive_lengths_witness :
  box_ok ortho
  /\ BoxM.L_set (PyArray (_L ortho)) cube10 = (Ok tt, ortho).
Proof.
  assert (H : box_ok ortho).
  { refine (proj1 box_holds_three_positive_lengths
              (PySeq [PyFloat 10; PyFloat 15; PyFloat 20]) ortho _ eq_refl).
    simpl. tauto. }
  split; [exact H|].
  exact (proj1 (proj2 (proj2 box_holds_three_positive_lengths) ortho cube10 H)).
Defined.

(** ** [_zeros] on its own output *)

(** X11.  What [_zeros] returns is a fixed point: handed its own output
    array it returns the same array and the same zeros, with the scalar
    flag false.  The zeros have the shape of the array, and for a
    well-formed input both are well formed and hold equally many
    entries. *)
Theorem zeros_output_is_fixed_point
        (x : pyobj) (a z : ndarray) (flag : bool) :
  LJ._zeros x = Ok (a, z, flag) ->
  LJ._zeros (PyArray a) = Ok (a, z, false)
  /\ nd_shape z = nd_shape a
  /\ (pyobj_wf x -> nd_wf a /\ nd_wf z /\ nd_size z = nd_size a).
Proof.
  rewrite zeros_eq. destruct (np_array x 1) as [a'|e] eqn:Ha; [|discriminate].
  destruct (nd_rank a' =? 1)%nat eqn:Hr; [|discriminate].
  intros H; injection H as <- <- <-. apply Nat.eqb_eq in Hr.
  pose proof Ha as Hinv.
  apply np_array_ok in Hinv as (sh & d & _ & _ & _ & ->).
  unfold nd_rank in Hr. cbn [nd_shape] in Hr.
  split; [|split].
  - rewrite zeros_eq.
    rewrite (np_array_of_shape _ _ (promote 1 sh) d);
      [| reflexivity | rewrite Hr; unfold NPY_MAXDIMS; lia | reflexivity].
    rewrite promote_full by lia.
    unfold nd_rank. cbn [nd_shape]. rewrite Hr. reflexivity.
  - reflexivity.
  - intros Hwf. pose proof (np_array_wf _ _ _ Hwf Ha) as Hwfa.
    split; [exact Hwfa|]. destruct Hwfa as [Hnn Hsz].
    cbn [nd_shape nd_size] in Hnn, Hsz.
    unfold np_zeros_like, np_zeros. cbn [nd_shape nd_dtype]. split.
    + split; cbn [nd_shape nd_size]; [exact Hnn|].
      rewrite repeat_length, Z2Nat.id; [reflexivity | rewrite <- Hsz; lia].
    + cbn [nd_size]. rewrite repeat_length, <- Hsz, Nat2Z.id. reflexivity.
Qed.

(** X11 at a flat sequence of two numbers. *)
Lemma zeros_output_is_fixed_point_witness :
  LJ._zeros (PyArray (NdFloat64 [2] [1; 2]%float))
  = Ok (NdFloat64 [2] [1; 2]%float, NdFloat64 [2] [0; 0]%float, false).
Proof.
  exact (proj1 (zeros_output_is_fixed_point
                  (PySeq [PyFloat 1; PyFloat 2])
                  (NdFloat64 [2] [1; 2]%float) (NdFloat64 [2] [0; 0]%float)
                  false eq_refl)).
Defined.

(** ** Writing frames *)

Lemma write_rows_appends (format_f : float -> String.string)
      (positions : ndarray) (rows : list nat) (w : XYZ.XYZWriter) :
  exists lines,
    XYZ._handle (snd (XYZ.write_rows format_f positions rows w))
    = XYZ._handle w ++ lines.
Proof.
  revert w. induction rows as [|i rest IH]; intros w; simpl.
  - exists []. rewrite app_nil_r. reflexivity.
  - destruct (XYZ.nd_item2 positions i 0);
      [|exists []; rewrite app_nil_r; reflexivity].
    destruct (XYZ.nd_item2 positions i 1);
      [|exists []; rewrite app_nil_r; reflexivity].
    destruct (XYZ.nd_item2 positions i 2) as [z|];
      [|exists []; rewrite app_nil_r; reflexivity].
    destruct (IH (XYZ.handle_write (XYZ.atom_line format_f f f0 z) w))
      as [lines ->].
    unfold XYZ.handle_write. cbn [XYZ._handle].
    rewrite <- app_assoc. eexists; reflexivity.
Qed.

(** X12.  [XYZWriter.write] only ever appends: whatever the state, and
    whether the call returns or raises half way, what the file held before
    is still there, in order, followed by the count line of the state and
    whatever else the call got to write. *)
Theorem write_only_appends
        (format_f : float -> String.string) (s : State) (w : XYZ.XYZWriter) :
  exists lines,
    XYZ._handle (snd (XYZ.write format_f s w))
    = XYZ._handle w ++ XYZ.count_line (_N s) :: lines.
Proof.
  unfold XYZ.write. cbv zeta.
  destruct (XYZ.nd_item1 (_L (_box s)) 0) as [l0|];
    [|exists []; reflexivity].
  destruct (XYZ.nd_item1 (_L (_box s)) 1) as [l1|];
    [|exists []; reflexivity].
  destruct (XYZ.nd_item1 (_L (_box s)) 2) as [l2|];
    [|exists []; reflexivity].
  destruct (XYZ.format_d_obj (_counter s)) as [t|];
    [|exists []; reflexivity].
  destruct (XYZ.nd_len (_positions s)) as [n|].
  - destruct (write_rows_appends format_f (_positions s) (seq 0 n)
                (XYZ.handle_write (XYZ.lattice_line format_f l0 l1 l2 t)
                   (XYZ.handle_write (XYZ.count_line (_N s)) w)))
      as [lines ->].
    unfold XYZ.handle_write. cbn [XYZ._handle].
    rewrite <- !app_assoc. eexists; reflexivity.
  - unfold XYZ.handle_write. cbn [snd XYZ._handle].
    rewrite <- app_assoc. eexists; reflexivity.
Qed.

Lemma nd_item2_row (N : Z) (pre rest : list float) (x y z : float) (k : nat) :
  length pre = (k * 3)%nat -> Z.of_nat k < N ->
  let a := NdFloat64 [N; 3] (pre ++ x :: y :: z :: rest) in
  XYZ.nd_item2 a k 0 = Some x
  /\ XYZ.nd_item2 a k 1 = Some y
  /\ XYZ.nd_item2 a k 2 = Some z.
Proof.
  intros Hpre Hk a. unfold XYZ.nd_item2, a. cbn [nd_shape nd_float_data].
  apply Z.ltb_lt in Hk. rewrite Hk.
  change (Z.to_nat 3) with 3%nat.
  repeat split; cbn [andb Z.ltb Z.of_nat Z.compare Pos.compare
                       Pos.compare_cont Pos.of_succ_nat Pos.succ];
    rewrite nth_error_app2 by lia.
  - replace (k * 3 + 0 - length pre)%nat with 0%nat by lia. reflexivity.
  - replace (k * 3 + 1 - length pre)%nat with 1%nat by lia. reflexivity.
  - replace (k * 3 + 2 - length pre)%nat with 2%nat by lia. reflexivity.
Qed.

Lemma write_rows_all (format_f : float -> String.string) (N : Z) (m : nat) :
  forall (k : nat) (pre rest : list float) (w : XYZ.XYZWriter),
    length pre = (k * 3)%nat -> length rest = (m * 3)%nat ->
    Z.of_nat (k + m) <= N ->
    XYZ.write_rows format_f (NdFloat64 [N; 3] (pre ++ rest)) (seq k m) w
    = (Some tt,
       XYZ.mkXYZWriter (XYZ._handle w ++ XYZ.atom_lines format_f rest)).
Proof.
  induction m as [|m IH]; intros k pre rest w Hpre Hrest HN.
  - destruct rest; [|discriminate]. simpl. rewrite app_nil_r.
    destruct w; reflexivity.
  - destruct rest as [|x [|y [|z rest]]]; try discriminate.
    cbn [seq XYZ.write_rows].
    destruct (nd_item2_row N pre rest x y z k Hpre) as (-> & -> & ->);
      [lia|].
    replace (pre ++ x :: y :: z :: rest)
      with ((pre ++ [x; y; z]) ++ rest)
      by (rewrite <- app_assoc; reflexivity).
    rewrite (IH (S k) (pre ++ [x; y; z]) rest).
    + unfold XYZ.handle_write. cbn [XYZ._handle XYZ.atom_lines].
      rewrite <- app_assoc. reflexivity.
    + rewrite length_app, Hpre. simpl. lia.
    + simpl in Hrest. lia.
    + lia.
Qed.

Lemma atom_lines_length (format_f : float -> String.string) (m : nat) :
  forall d, length d = (m * 3)%nat ->
            length (XYZ.atom_lines format_f d) = m.
Proof.
  induction m as [|m IH]; intros d Hd.
  - destruct d; [reflexivity | discriminate].
  - destruct d as [|x [|y [|z d]]]; try discriminate.
    cbn [XYZ.atom_lines length]. rewrite IH; [reflexivity|].
    simpl in Hd. lia.
Qed.

(** X13.  On a state whose positions are a well-formed (N,3) float64
    array, whose box holds three lengths and whose counter is an integer,
    [write] returns, and appends to the file exactly one frame: the count
    line, the lattice line with the three lengths and the counter, and then
    N coordinate lines, one per row of the positions in order. *)
Theorem write_appends_one_frame
        (format_f : float -> String.string) (s : State) (w : XYZ.XYZWriter)
        (d : list float) (x y z : float) (t : String.string) :
  _positions s = NdFloat64 [_N s; 3] d ->
  Z.of_nat (length d) = _N s * 3 ->
  _L (_box s) = NdFloat64 [3] [x; y; z] ->
  XYZ.format_d_obj (_counter s) = Some t ->
  XYZ.write format_f s w
  = (Some tt,
     XYZ.mkXYZWriter
       (XYZ._handle w
          ++ XYZ.count_line (_N s)
          :: XYZ.lattice_line format_f x y z t
          :: XYZ.atom_lines format_f d))
  /\ length (XYZ.atom_lines format_f d) = Z.to_nat (_N s).
Proof.
  intros Hpos Hlen HL Ht.
  assert (Hd : length d = (Z.to_nat (_N s) * 3)%nat) by lia.
  split; [|apply atom_lines_length; exact Hd].
  unfold XYZ.write. cbv zeta. rewrite HL, Ht, Hpos.
  change (XYZ.nd_item1 (NdFloat64 [3] [x; y; z]) 0) with (Some x).
  change (XYZ.nd_item1 (NdFloat64 [3] [x; y; z]) 1) with (Some y).
  change (XYZ.nd_item1 (NdFloat64 [3] [x; y; z]) 2) with (Some z).
  change (XYZ.nd_len (NdFloat64 [_N s; 3] d)) with (Some (Z.to_nat (_N s))).
  cbv beta iota.
  pose proof (write_rows_all format_f (_N s) (Z.to_nat (_N s)) 0 [] d)
    as Hrows.
  cbn [app] in Hrows. rewrite Hrows; [| reflexivity | exact Hd | lia].
  unfold XYZ.handle_write. cbn [XYZ._handle].
  rewrite <- !app_assoc. reflexivity.
Qed.

(** X13 at a fresh [State(2, Box(10.0))] and an empty file. *)
Lemma write_appends_one_frame_witness :
  XYZ.write (fun _ => String.EmptyString) state2 (XYZ.mkXYZWriter [])
  = (Some tt,
     XYZ.mkXYZWriter
       ([] ++ XYZ.count_line 2
           :: XYZ.lattice_line (fun _ => String.EmptyString) 10 10 10
                               (XYZ.format_d 0)
           :: XYZ.atom_lines (fun _ => String.EmptyString)
                             (repeat 0%float 6)))
  /\ length (XYZ.atom_lines (fun _ => String.EmptyString) (repeat 0%float 6))
     = 2%nat.
Proof.
  exact (write_appends_one_frame (fun _ => String.EmptyString) state2
           (XYZ.mkXYZWriter []) (repeat 0%float 6) 10 10 10 (XYZ.format_d 0)
           eq_refl eq_refl eq_refl eq_refl).
Defined.
